(** * Verification of the WRPF records dashboard (src/dash.py)

    Shallow embedding of the normalizer [load_data] and of the query
    engine ([apply_filters], [best_per_class_and_lift] and the discipline
    tabs of [main]).

    Modelling conventions.
    - A pandas cell of an object column is an [option string]: [None] is
      NaN / NA.  Strings are [String.string]; a character is read as the
      Latin-1 code point of its [ascii] code.
    - A numeric pandas cell (after [pd.to_numeric(..., errors="coerce")])
      is an [option Q]: [None] is NaN.
    - A DataFrame is the list of its rows, in index order.
    - The dtypes [pd.read_csv] infers per column are a parameter of
      [load_data_rd] (a [Reader]); [load_data] is the reading of a table
      of text columns.
    - The regex engine of the search is a parameter of [apply_filters_rx];
      [apply_filters] runs it with Python's [re] on the fragment [Rx]. *)

From Stdlib Require Import String Ascii List Bool Arith Lia ZArith QArith.
From Stdlib Require Import Sorting.Sorted Sorting.Permutation.
Import ListNotations.
Open Scope nat_scope.
Open Scope string_scope.

(* ================================================================== *)
(** ** Python string primitives *)

Module Py.

(** [str.isspace] on one character (code points below 256). *)
Definition is_ws (c : ascii) : bool :=
  let n := nat_of_ascii c in
  (((9 <=? n) && (n <=? 13)) || ((28 <=? n) && (n <=? 32))
  || (n =? 133) || (n =? 160))%nat.

Fixpoint lstrip (s : string) : string :=
  match s with
  | EmptyString => EmptyString
  | String c t => if is_ws c then lstrip t else s
  end.

Fixpoint rstrip (s : string) : string :=
  match s with
  | EmptyString => EmptyString
  | String c t =>
      match rstrip t with
      | EmptyString => if is_ws c then EmptyString else String c EmptyString
      | t' => String c t'
      end
  end.

(** [str.strip()] *)
Definition strip (s : string) : string := rstrip (lstrip s).

(** [Some p] when [s = p ++ suf]. *)
Fixpoint remove_suffix (suf s : string) : option string :=
  if String.eqb suf s then Some EmptyString
  else match s with
       | EmptyString => None
       | String c t => option_map (String c) (remove_suffix suf t)
       end.

(** [str.endswith(suf)] *)
Definition endswith (suf s : string) : bool :=
  match remove_suffix suf s with Some _ => true | None => false end.

Definition nl : string := String "010"%char EmptyString.

(** [re.sub(r"DT$", "", s)]: without MULTILINE, [$] matches at the end
    of the string and just before a final newline; the two candidate
    positions exclude each other, so at most one match is replaced. *)
Definition replace_DT_dollar (s : string) : string :=
  match remove_suffix "DT" s with
  | Some p => p
  | None =>
      match remove_suffix ("DT" ++ nl) s with
      | Some p => p ++ nl
      | None => s
      end
  end.

Definition is_digit (c : ascii) : bool :=
  let n := nat_of_ascii c in ((48 <=? n) && (n <=? 57))%nat.

Definition digit_val (c : ascii) : Z := Z.of_nat (nat_of_ascii c - 48)%nat.

(** Consume a run of decimal digits, accumulating into [acc]. *)
Fixpoint take_digits (s : string) (acc : Z) (n : nat) : Z * nat * string :=
  match s with
  | String c t =>
      if is_digit c then take_digits t (acc * 10 + digit_val c)%Z (S n)
      else (acc, n, s)
  | EmptyString => (acc, n, s)
  end.

Definition make_q (m k : Z) : Q :=
  if (0 <=? k)%Z then inject_Z (m * 10 ^ k)%Z
  else Qmake m (Z.to_pos (10 ^ (- k))%Z).

Definition take_sign (s : string) : bool * string :=
  match s with
  | String c t =>
      if Ascii.eqb c "-" then (true, t)
      else if Ascii.eqb c "+" then (false, t) else (false, s)
  | EmptyString => (false, s)
  end.

(** The blanks [pd.to_numeric]'s number parser skips: space and
    tab to carriage return. *)
Definition is_space_ascii (c : ascii) : bool :=
  let n := nat_of_ascii c in ((n =? 32) || ((9 <=? n) && (n <=? 13)))%nat.

Fixpoint skip_space (s : string) : string :=
  match s with
  | String c t => if is_space_ascii c then skip_space t else s
  | EmptyString => s
  end.

(** Optional exponent part [(e|E)[sign]digits]; without digits nothing
    is consumed. *)
Definition parse_exponent (s : string) : Z * string :=
  match s with
  | String c t =>
      if Ascii.eqb c "e" || Ascii.eqb c "E" then
        let '(neg, t1) := take_sign t in
        let '(e, n, rest) := take_digits t1 0 0 in
        match n with
        | S _ => ((if neg then - e else e)%Z, rest)
        | O => (0%Z, s)
        end
      else (0%Z, s)
  | EmptyString => (0%Z, s)
  end.

(** [pd.to_numeric(x, errors="coerce")] on a string cell: blanks, an
    optional sign, digits with an optional [.] and fraction (at least one
    digit in all), an optional exponent, blanks, and nothing else;
    anything else coerces to NaN ([None]).  The value is kept exact where
    pandas rounds it to the nearest float; the spellings inf / infinity,
    which pandas reads as +-inf, and values beyond the float range have no
    rational value and are outside this model. *)
Definition to_numeric_str (s : string) : option Q :=
  let '(neg, s1) := take_sign (skip_space s) in
  let '(m1, n1, s2) := take_digits s1 0 0 in
  let '(m2, n2, s3) :=
    match s2 with
    | String c t => if Ascii.eqb c "." then take_digits t m1 0%nat else (m1, 0%nat, s2)
    | EmptyString => (m1, 0%nat, s2)
    end in
  if (n1 + n2 =? 0)%nat then None
  else let '(e, rest) := parse_exponent s3 in
       match skip_space rest with
       | EmptyString => Some (make_q (if neg then - m2 else m2)%Z (e - Z.of_nat n2))
       | _ => None
       end.

Definition to_numeric (c : option string) : option Q :=
  match c with Some s => to_numeric_str s | None => None end.

End Py.

(* ================================================================== *)
(** ** Raw table and [pd.read_csv] *)

(** One CSV data row: the text of each named column (an absent trailing
    field is the empty text). *)
Record RawRow := {
  raw_full_name : string;
  raw_weight : string;
  raw_class : string;
  raw_division : string;
  raw_lift : string;
  raw_record_type : string;
  raw_record_name : string;
  raw_sex : string;
  raw_equipment : string;
  raw_date : string;
  raw_location : string
}.

(** pandas' default [na_values]: these cell texts are read as NaN. *)
Definition default_na_values : list string :=
  [EmptyString; "#N/A"; "#N/A N/A"; "#NA"; "-1.#IND"; "-1.#QNAN"; "-NaN";
   "-nan"; "1.#IND"; "1.#QNAN"; "<NA>"; "N/A"; "NA"; "NULL"; "NaN"; "None";
   "n/a"; "nan"; "null"].

(** [pd.read_csv] on one cell of an object (text) column. *)
Definition read_cell (s : string) : option string :=
  if existsb (String.eqb s) default_na_values then None else Some s.

(* ================================================================== *)
(** ** Normalizer: [load_data] *)

(** [LIFT_MAP] *)
Definition LIFT_MAP : list (string * string) :=
  [("S", "Squat"); ("B", "Bench"); ("D", "Deadlift"); ("T", "Total");
   ("Total", "Total")].

Definition LIFT_ORDER : list string := ["Squat"; "Bench"; "Deadlift"; "Total"].

(** [INVALID_WEIGHT_CLASSES] *)
Definition INVALID_WEIGHT_CLASSES : list string :=
  ["736"; "737"; "738"; "739"; "cell"].

Fixpoint assoc (k : string) (m : list (string * string)) : option string :=
  match m with
  | [] => None
  | (k', v) :: m' => if String.eqb k k' then Some v else assoc k m'
  end.

(** [Series.replace(LIFT_MAP)] on one cell: a key of the table is
    replaced by its label, any other value (and NaN) is left as is. *)
Definition replace_lift (c : option string) : option string :=
  match c with
  | Some s => match assoc s LIFT_MAP with Some v => Some v | None => Some s end
  | None => None
  end.

(** [Series.fillna(v)] on one cell. *)
Definition fillna {A} (c : option A) (v : A) : A :=
  match c with Some x => x | None => v end.

(** [Series.fillna(other_series)] on one cell. *)
Definition fillna_from {A} (c other : option A) : option A :=
  match c with Some x => Some x | None => other end.

(** One row of the DataFrame returned by [load_data] (the columns the
    dashboard reads; [Date_parsed] is never read and is left out). *)
Record Rec := {
  full_name : option string;      (* "Full Name" *)
  weight : option Q;              (* "Weight" *)
  class : string;                 (* "Class" *)
  division : option string;       (* "Division" *)
  division_raw : option string;   (* "Division_raw" *)
  division_base : option string;  (* "Division_base" *)
  testing : option string;        (* "Testing" *)
  lift : string;                  (* "Lift" *)
  record_type : string;           (* "Record Type" *)
  record_name : string;           (* "Record Name" *)
  sex : option string;            (* "Sex" *)
  equipment : option string;      (* "Equipment" *)
  date : option string;           (* "Date" *)
  location : option string        (* "Location" *)
}.

(** [df["Class"].astype(str).str.strip()]: a NaN cell prints as "nan". *)
Definition class_of (r : RawRow) : string :=
  Py.strip (fillna (read_cell (raw_class r)) "nan").

(** [.map({True: "Tested", False: "Untested"})] of [str.endswith("DT")]. *)
Definition testing_of (s : string) : string :=
  if Py.endswith "DT" s then "Tested" else "Untested".

(** The column assignments of [load_data] on one kept row. *)
Definition normalize_row (r : RawRow) : Rec :=
  let div_raw := option_map Py.strip (read_cell (raw_division r)) in
  let lift0 := read_cell (raw_lift r) in
  {| full_name := read_cell (raw_full_name r);
     weight := Py.to_numeric (read_cell (raw_weight r));
     class := class_of r;
     division := read_cell (raw_division r);
     division_raw := div_raw;
     division_base := option_map Py.replace_DT_dollar div_raw;
     testing := option_map testing_of div_raw;
     lift := fillna (fillna_from (replace_lift lift0) lift0) EmptyString;
     record_type := fillna (read_cell (raw_record_type r)) EmptyString;
     record_name := fillna (read_cell (raw_record_name r)) EmptyString;
     sex := read_cell (raw_sex r);
     equipment := read_cell (raw_equipment r);
     date := read_cell (raw_date r);
     location := read_cell (raw_location r) |}.

Definition notna {A} (c : option A) : bool :=
  match c with Some _ => true | None => false end.

Definition is_invalid_class (c : string) : bool :=
  existsb (String.eqb c) INVALID_WEIGHT_CLASSES.

(** [load_data]: drop rows with NaN "Full Name" or "Weight", drop the
    artefact classes, then derive the columns. *)
Definition load_data (rows : list RawRow) : list Rec :=
  let df1 := filter (fun r => notna (read_cell (raw_full_name r))
                              && notna (read_cell (raw_weight r))) rows in
  let df2 := filter (fun r => negb (is_invalid_class (class_of r))) df1 in
  map normalize_row df2.

(** A raw row with the given name, weight, class, division and lift; the
    other cells empty. *)
Definition mk_raw (n w c d l : string) : RawRow :=
  {| raw_full_name := n; raw_weight := w; raw_class := c; raw_division := d;
     raw_lift := l; raw_record_type := EmptyString;
     raw_record_name := EmptyString; raw_sex := EmptyString;
     raw_equipment := EmptyString; raw_date := EmptyString;
     raw_location := EmptyString |}.

(** [LIFT_MAP] as the spec words it: S, B, D, T, Total are relabelled,
    other codes pass through, a missing code becomes the empty string. *)
Definition lift_label_spec (c : option string) : string :=
  match c with
  | None => EmptyString
  | Some s =>
      if String.eqb s "S" then "Squat"
      else if String.eqb s "B" then "Bench"
      else if String.eqb s "D" then "Deadlift"
      else if String.eqb s "T" then "Total"
      else if String.eqb s "Total" then "Total"
      else s
  end.

(* ================================================================== *)
(** ** Normalizer: what [pd.read_csv] makes of each column *)

(** [pd.read_csv] gives each column one dtype, inferred from all of its
    cells, so what a cell reads as can depend on the other rows: in a
    Class column of integers "090" reads as 90, and "90" reads as 90.0 as
    soon as another Class cell is missing; a Division column holding no
    text is not a string column, and [.str.strip()] on it raises
    AttributeError.  Which cells are missing does not depend on the dtype:
    exactly those whose text is one of [default_na_values].  A [Reader]
    is what the reading gives for the table at hand:
    - [rd_val k s]: the value read from the non-missing cell [s] of
      column [k], written as text ([s] itself in an object column);
    - [rd_weight s]: [pd.to_numeric(errors="coerce")] of the value read
      from the non-missing Weight cell [s];
    - [rd_class s]: [astype(str)] of the value read from the non-missing
      Class cell [s];
    - [rd_division_str]: the Division column holds strings.
    Missing values follow pandas 2 ([astype(str)] prints NaN as "nan",
    string methods give NaN on NaN). *)
Inductive Col :=
  CName | CLift | CRecordType | CRecordName | CSex | CEquipment | CDate | CLocation.

Record Reader := {
  rd_val : Col -> string -> string;
  rd_weight : string -> option Q;
  rd_class : string -> string;
  rd_division_str : bool
}.

(** The reading of a table whose columns all hold text (object columns). *)
Definition text_reader : Reader :=
  {| rd_val := fun _ s => s; rd_weight := Py.to_numeric_str;
     rd_class := fun s => s; rd_division_str := true |}.

(** One cell of column [k] as read. *)
Definition read_col (rd : Reader) (k : Col) (s : string) : option string :=
  option_map (rd_val rd k) (read_cell s).

(** [df["Class"].astype(str).str.strip()] *)
Definition class_of_rd (rd : Reader) (r : RawRow) : string :=
  Py.strip (fillna (option_map (rd_class rd) (read_cell (raw_class r))) "nan").

(** The column assignments of [load_data] on one kept row. *)
Definition normalize_row_rd (rd : Reader) (r : RawRow) : Rec :=
  let div_raw := option_map Py.strip (read_cell (raw_division r)) in
  let lift0 := read_col rd CLift (raw_lift r) in
  {| full_name := read_col rd CName (raw_full_name r);
     weight := match read_cell (raw_weight r) with
               | Some s => rd_weight rd s
               | None => None
               end;
     class := class_of_rd rd r;
     division := read_cell (raw_division r);
     division_raw := div_raw;
     division_base := option_map Py.replace_DT_dollar div_raw;
     testing := option_map testing_of div_raw;
     lift := fillna (fillna_from (replace_lift lift0) lift0) EmptyString;
     record_type := fillna (read_col rd CRecordType (raw_record_type r)) EmptyString;
     record_name := fillna (read_col rd CRecordName (raw_record_name r)) EmptyString;
     sex := read_col rd CSex (raw_sex r);
     equipment := read_col rd CEquipment (raw_equipment r);
     date := read_col rd CDate (raw_date r);
     location := read_col rd CLocation (raw_location r) |}.

(** The rows [load_data] keeps, in order: a non-missing "Full Name" and
    "Weight", and a class outside [INVALID_WEIGHT_CLASSES]. *)
Definition kept_rows (rd : Reader) (rows : list RawRow) : list RawRow :=
  let df1 := filter (fun r => notna (read_cell (raw_full_name r))
                              && notna (read_cell (raw_weight r))) rows in
  filter (fun r => negb (is_invalid_class (class_of_rd rd r))) df1.

(** [load_data] on a table read by [rd]; [None] when [.str] raises on
    the Division column. *)
Definition load_data_rd (rd : Reader) (rows : list RawRow) : option (list Rec) :=
  let df2 := kept_rows rd rows in
  if rd_division_str rd then Some (map (normalize_row_rd rd) df2) else None.

(* ================================================================== *)
(** ** Case-insensitive regex search ([Series.str.contains(pat, case=False)]) *)

Module Rx.

(** Lower-casing of Python's [re.IGNORECASE] / [str.lower] on code points
    below 256: A-Z and the Latin-1 capitals (192-222 but 215). *)
Definition py_lower (c : ascii) : ascii :=
  let n := nat_of_ascii c in
  if (((65 <=? n) && (n <=? 90)) || ((192 <=? n) && (n <=? 222) && negb (n =? 215)))%nat
  then ascii_of_nat (n + 32) else c.

Fixpoint lower (s : string) : string :=
  match s with
  | EmptyString => EmptyString
  | String c t => String (py_lower c) (lower t)
  end.

(** The fragment of Python's regular expressions handled here: branches
    separated by [|], each a sequence of literal characters and [.]. *)
Inductive atom := ALit (c : ascii) | AAny.

(** The characters that make a pattern leave the fragment. *)
Definition is_meta (c : ascii) : bool :=
  existsb (Ascii.eqb c) ["\"; "^"; "$"; "*"; "+"; "?"; "{"; "}"; "["; "]"; "("; ")"]%char.

Fixpoint split_bar (s : string) : list string :=
  match s with
  | EmptyString => [EmptyString]
  | String c t =>
      if Ascii.eqb c "|" then EmptyString :: split_bar t
      else match split_bar t with
           | b :: bs => String c b :: bs
           | [] => [String c EmptyString]
           end
  end.

Fixpoint parse_branch (s : string) : option (list atom) :=
  match s with
  | EmptyString => Some []
  | String c t =>
      if Ascii.eqb c "." then option_map (cons AAny) (parse_branch t)
      else if is_meta c then None
      else option_map (cons (ALit c)) (parse_branch t)
  end.

Fixpoint all_some {A} (l : list (option A)) : option (list A) :=
  match l with
  | [] => Some []
  | Some x :: t => option_map (cons x) (all_some t)
  | None :: _ => None
  end.

(** [None]: the pattern is outside the fragment (this includes the
    patterns [re.compile] rejects, such as "("). *)
Definition parse_pattern (pat : string) : option (list (list atom)) :=
  all_some (map parse_branch (split_bar pat)).

Definition atom_match (a : atom) (c : ascii) : bool :=
  match a with
  | ALit x => Ascii.eqb (py_lower x) (py_lower c)
  | AAny => negb (Ascii.eqb c "010"%char)
  end.

Fixpoint match_here (p : list atom) (s : string) : bool :=
  match p, s with
  | [], _ => true
  | a :: p', String c t => atom_match a c && match_here p' t
  | _ :: _, EmptyString => false
  end.

(** [re.search]: a match starting at some position. *)
Fixpoint search_branch (p : list atom) (s : string) : bool :=
  match_here p s ||
  match s with
  | EmptyString => false
  | String _ t => search_branch p t
  end.

(** [str.contains(pat, case=False, na=False)] on one cell, [pat] parsed. *)
Definition search_cell (bs : list (list atom)) (c : option string) : bool :=
  match c with
  | Some s => existsb (fun b => search_branch b s) bs
  | None => false
  end.

(** The spec's reading: [needle] occurs in [hay] as a literal substring,
    ignoring case. *)
Fixpoint starts_with (p s : string) : bool :=
  match p, s with
  | EmptyString, _ => true
  | String a p', String b s' => Ascii.eqb a b && starts_with p' s'
  | String _ _, EmptyString => false
  end.

Fixpoint occurs_in (p s : string) : bool :=
  starts_with p s ||
  match s with
  | EmptyString => false
  | String _ t => occurs_in p t
  end.

Definition contains_ci (needle hay : string) : bool :=
  occurs_in (lower needle) (lower hay).

(** A pattern made of literal characters only, as one branch. *)
Fixpoint lits (s : string) : list atom :=
  match s with
  | EmptyString => []
  | String c t => ALit c :: lits t
  end.

(** No character of [s] has a regex meaning. *)
Fixpoint plain (s : string) : bool :=
  match s with
  | EmptyString => true
  | String c t =>
      negb (is_meta c || Ascii.eqb c "." || Ascii.eqb c "|") && plain t
  end.

End Rx.

(* ================================================================== *)
(** ** Query engine: [apply_filters] and the discipline tabs *)

(** The [sel] dictionary built by [inline_filters] / [sidebar_filters]. *)
Record Sel := {
  sel_sex : string;
  sel_division : string;
  sel_testing_status : string;
  sel_equipment : string;
  sel_weight_class : string;
  sel_search : string
}.

(** [series == v] on one cell: NaN compares unequal. *)
Definition cell_eq (c : option string) (v : string) : bool :=
  match c with Some x => String.eqb x v | None => false end.

(** [apply_filters] with the regex engine [rx]: [rx pat] is [None] when
    [re.compile(pat, re.IGNORECASE)] raises, and otherwise the test
    [re.search(pat, s, re.IGNORECASE) is not None] on a string [s]. *)
Definition apply_filters_rx (rx : string -> option (string -> bool))
  (df : list Rec) (sel : Sel) : option (list Rec) :=
  let filtered := df in
  let filtered := if String.eqb (sel_sex sel) "All" then filtered
                  else filter (fun r => cell_eq (sex r) (sel_sex sel)) filtered in
  let filtered := if String.eqb (sel_division sel) "All" then filtered
                  else filter (fun r => cell_eq (division_base r) (sel_division sel)) filtered in
  let filtered := if String.eqb (sel_testing_status sel) "All" then filtered
                  else filter (fun r => cell_eq (testing r) (sel_testing_status sel)) filtered in
  let filtered := if String.eqb (sel_equipment sel) "All" then filtered
                  else filter (fun r => cell_eq (equipment r) (sel_equipment sel)) filtered in
  let filtered := if String.eqb (sel_weight_class sel) "All" then filtered
                  else filter (fun r => String.eqb (class r) (sel_weight_class sel)) filtered in
  match sel_search sel with
  | EmptyString => Some filtered
  | pat =>
      match rx pat with
      | Some m =>
          Some (filter (fun r => match full_name r with
                                 | Some n => m n
                                 | None => false
                                 end || m (record_name r)) filtered)
      | None => None
      end
  end.

(** Python's [re] on the patterns of the fragment [Rx]; [None] for the
    patterns outside it. *)
Definition fragment_rx (pat : string) : option (string -> bool) :=
  option_map (fun bs s => Rx.search_cell bs (Some s)) (Rx.parse_pattern pat).

(** [apply_filters] with search patterns of the fragment [Rx]. *)
Definition apply_filters (df : list Rec) (sel : Sel) : option (list Rec) :=
  apply_filters_rx fragment_rx df sel.

(** The "Full Power" tab of [main]. *)
Definition full_power (filtered : list Rec) : option (list Rec) :=
  match Rx.parse_pattern "Single" with
  | Some bs => Some (filter (fun r => negb (Rx.search_cell bs (Some (record_type r)))) filtered)
  | None => None
  end.

(** The "Single Lifts" tab of [main]. *)
Definition single_lifts (filtered : list Rec) : option (list Rec) :=
  match Rx.parse_pattern "Single|Bench Only|Deadlift Only" with
  | Some bs =>
      Some (filter (fun r => Rx.search_cell bs (Some (record_type r))
                             && existsb (String.eqb (lift r)) ["Bench"; "Deadlift"]) filtered)
  | None => None
  end.

(** The search as the spec words it: keep the records whose fullName or
    recordName contains [search] as a literal substring, ignoring case. *)
Definition search_spec (df : list Rec) (search : string) : list Rec :=
  filter (fun r => match full_name r with
                   | Some n => Rx.contains_ci search n
                   | None => false
                   end || Rx.contains_ci search (record_name r)) df.

(** A record with the given name, record name, weight, class and lift and
    no other cells. *)
Definition mk_rec (n rn : string) (w : Q) (c l : string) : Rec :=
  {| full_name := Some n; weight := Some w; class := c; division := None;
     division_raw := None; division_base := None; testing := None; lift := l;
     record_type := EmptyString; record_name := rn; sex := None;
     equipment := None; date := None; location := None |}.

Definition search_sel (search : string) : Sel :=
  {| sel_sex := "All"; sel_division := "All"; sel_testing_status := "All";
     sel_equipment := "All"; sel_weight_class := "All"; sel_search := search |}.

(* ================================================================== *)
(** ** Query engine: [best_per_class_and_lift] *)

Module Best.

(** [sort_values("Weight", ascending=False)]: [a] may come before [b]
    (NaN last). *)
Definition weight_desc_leb (a b : Rec) : bool :=
  match weight a, weight b with
  | Some x, Some y => Qle_bool y x
  | Some _, None => true
  | None, None => true
  | None, Some _ => false
  end.

Definition class_lift (r : Rec) : string * string := (class r, lift r).

Definition key_eqb (k k' : string * string) : bool :=
  String.eqb (fst k) (fst k') && String.eqb (snd k) (snd k').

(** [drop_duplicates(subset=["Class", "Lift"])]: keep the first row of
    each key, [seen] holding the keys met so far. *)
Fixpoint drop_duplicates (seen : list (string * string)) (df : list Rec) : list Rec :=
  match df with
  | [] => []
  | r :: t =>
      if existsb (key_eqb (class_lift r)) seen then drop_duplicates seen t
      else r :: drop_duplicates (class_lift r :: seen) t
  end.

(** [_class_num]: [pd.to_numeric(d["Class"], errors="coerce")]. *)
Definition class_num (r : Rec) : option Q := Py.to_numeric_str (class r).

Fixpoint index_of (x : string) (l : list string) : option nat :=
  match l with
  | [] => None
  | y :: t => if String.eqb x y then Some 0 else option_map S (index_of x t)
  end.

(** [_lift_order]: [LIFT_ORDER.index(x) if x in LIFT_ORDER else 99]. *)
Definition lift_order (r : Rec) : nat :=
  match index_of (lift r) LIFT_ORDER with Some i => i | None => 99 end.

(** The key of [sort_values(["_class_num", "Class", "_lift_order"])],
    for a conversion [num] of the class text to numbers compared by
    [ncmp] ([pd.to_numeric] to floats in the code). *)
Section Keys.
Context {N : Type} (ncmp : N -> N -> comparison) (num : string -> option N).

(** Ascending order with NaN last. *)
Definition cmp_num_by (x y : option N) : comparison :=
  match x, y with
  | Some a, Some b => ncmp a b
  | Some _, None => Lt
  | None, Some _ => Gt
  | None, None => Eq
  end.

Definition key_cmp_by (a b : Rec) : comparison :=
  match cmp_num_by (num (class a)) (num (class b)) with
  | Eq =>
      match String.compare (class a) (class b) with
      | Eq => Nat.compare (lift_order a) (lift_order b)
      | c => c
      end
  | c => c
  end.

Definition key_leb_by (a b : Rec) : bool :=
  match key_cmp_by a b with Gt => false | _ => true end.

End Keys.

(** The key with the rational reading [Py.to_numeric_str]. *)
Definition key_cmp : Rec -> Rec -> comparison := key_cmp_by Qcompare Py.to_numeric_str.

Definition key_leb : Rec -> Rec -> bool := key_leb_by Qcompare Py.to_numeric_str.

(** [best_per_class_and_lift]; [sort_weight_desc] and [sort_keys] are the
    two [sort_values] calls.  pandas' single-column sort is an unstable
    quicksort, so each is any function returning a sorted permutation
    (see the hypotheses of the section below). *)
Definition best_per_class_and_lift (sort_weight_desc sort_keys : list Rec -> list Rec)
  (df : list Rec) : list Rec :=
  sort_keys (drop_duplicates [] (sort_weight_desc df)).

(** A sort to run the function on concrete inputs: insertion sort. *)
Fixpoint insert_by (leb : Rec -> Rec -> bool) (x : Rec) (l : list Rec) : list Rec :=
  match l with
  | [] => [x]
  | y :: t => if leb x y then x :: y :: t else y :: insert_by leb x t
  end.

Fixpoint isort (leb : Rec -> Rec -> bool) (l : list Rec) : list Rec :=
  match l with
  | [] => []
  | x :: t => insert_by leb x (isort leb t)
  end.

Definition best_isort : list Rec -> list Rec :=
  best_per_class_and_lift (isort weight_desc_leb) (isort key_leb).

(** The spec's lift sequence: Squat, Bench, Deadlift, Total, then any
    other label. *)
Definition lift_rank (r : Rec) : nat :=
  if String.eqb (lift r) "Squat" then 0
  else if String.eqb (lift r) "Bench" then 1
  else if String.eqb (lift r) "Deadlift" then 2
  else if String.eqb (lift r) "Total" then 3
  else 4.

(** The output order as the spec words it: [a] may precede [b] when its
    numeric class is smaller, or the classes are equal numbers and its
    lift comes first; non-numeric classes come after the numeric ones,
    by string value, then lift. *)
Definition claim_leb (a b : Rec) : bool :=
  match class_num a, class_num b with
  | Some x, Some y =>
      negb (Qle_bool y x) || (Qeq_bool x y && Nat.leb (lift_rank a) (lift_rank b))
  | Some _, None => true
  | None, Some _ => false
  | None, None =>
      String.ltb (class a) (class b)
      || (String.eqb (class a) (class b) && Nat.leb (lift_rank a) (lift_rank b))
  end.

(** The same with the class text as a tie-break between numerically
    equal classes before the lift (the key the code sorts on), for a
    numeric reading [num] of the class text compared by [ncmp]. *)
Definition amended_leb_by {N : Type} (ncmp : N -> N -> comparison)
  (num : string -> option N) (a b : Rec) : bool :=
  let by_text :=
    String.ltb (class a) (class b)
    || (String.eqb (class a) (class b) && Nat.leb (lift_rank a) (lift_rank b)) in
  match num (class a), num (class b) with
  | Some x, Some y =>
      match ncmp x y with Lt => true | Eq => by_text | Gt => false end
  | Some _, None => true
  | None, Some _ => false
  | None, None => by_text
  end.

End Best.

(* ================================================================== *)
(** ** Filter widgets ([inline_filters] / [sidebar_filters]) and the
       "Lift Type" column of [render_table] *)

Module Opts.

(** [Series.unique()] / [dict.fromkeys]: first occurrences, in order. *)
Fixpoint unique_by {A} (eqb : A -> A -> bool) (seen : list A) (l : list A) : list A :=
  match l with
  | [] => []
  | x :: t =>
      if existsb (eqb x) seen then unique_by eqb seen t
      else x :: unique_by eqb (x :: seen) t
  end.

(** Equality of object cells as [unique] sees it (NaN equals NaN). *)
Definition opt_eqb (a b : option string) : bool :=
  match a, b with
  | Some x, Some y => String.eqb x y
  | None, None => true
  | _, _ => false
  end.

Fixpoint dropna (l : list (option string)) : list string :=
  match l with
  | [] => []
  | Some x :: t => x :: dropna t
  | None :: t => dropna t
  end.

(** Python's [sorted] on strings (code-point order); insertion sort is
    stable like Python's, and the strings sorted here are distinct. *)
Fixpoint insert_str (x : string) (l : list string) : list string :=
  match l with
  | [] => [x]
  | y :: t => if String.leb x y then x :: y :: t else y :: insert_str x t
  end.

Fixpoint sort_str (l : list string) : list string :=
  match l with
  | [] => []
  | x :: t => insert_str x (sort_str t)
  end.

(** The order [sorted] leaves strings in. *)
Definition str_le (a b : string) : Prop := String.leb a b = true.

(** [["All"] + sorted(df[col].dropna().unique())], the Sex and Equipment
    boxes. *)
Definition sorted_options (col : list (option string)) : list string :=
  "All" :: sort_str (unique_by String.eqb [] (dropna col)).

Definition sex_options (df : list Rec) : list string := sorted_options (map sex df).

Definition equipment_options (df : list Rec) : list string :=
  sorted_options (map equipment df).

Definition DIVISION_ORDER : list string :=
  ["T14-15"; "T16-17"; "T18-19"; "Junior"; "Opens";
   "M40-49"; "M50-59"; "M60-69"; "M70-79"].

(** [x in l] on a list of object cells. *)
Definition mem_opt (x : option string) (l : list (option string)) : bool :=
  existsb (opt_eqb x) l.

(** [ordered_divs]: the known divisions present, in [DIVISION_ORDER],
    then the others in first-seen order (NaN among them). *)
Definition ordered_divs (df : list Rec) : list (option string) :=
  let divs := unique_by opt_eqb [] (map division_base df) in
  filter (fun d => mem_opt d divs) (map Some DIVISION_ORDER)
  ++ filter (fun d => negb (mem_opt d (map Some DIVISION_ORDER))) divs.

(** [["All"] + ordered_divs], the Division box. *)
Definition division_options (df : list Rec) : list (option string) :=
  Some "All" :: ordered_divs df.

(** The [sel] built when one box holds [v] and every other box is left
    at "All" with an empty search. *)
Definition sel_with_sex (v : string) : Sel :=
  {| sel_sex := v; sel_division := "All"; sel_testing_status := "All";
     sel_equipment := "All"; sel_weight_class := "All"; sel_search := EmptyString |}.

Definition sel_with_testing (v : string) : Sel :=
  {| sel_sex := "All"; sel_division := "All"; sel_testing_status := v;
     sel_equipment := "All"; sel_weight_class := "All"; sel_search := EmptyString |}.

Definition sel_with_equipment (v : string) : Sel :=
  {| sel_sex := "All"; sel_division := "All"; sel_testing_status := "All";
     sel_equipment := v; sel_weight_class := "All"; sel_search := EmptyString |}.

Definition sel_with_class (v : string) : Sel :=
  {| sel_sex := "All"; sel_division := "All"; sel_testing_status := "All";
     sel_equipment := "All"; sel_weight_class := v; sel_search := EmptyString |}.

(** The five box tests of [apply_filters], in the order it applies them. *)
Definition fields_ok (sel : Sel) (r : Rec) : bool :=
  (String.eqb (sel_sex sel) "All" || cell_eq (sex r) (sel_sex sel))
  && ((String.eqb (sel_division sel) "All" || cell_eq (division_base r) (sel_division sel))
  && ((String.eqb (sel_testing_status sel) "All"
       || cell_eq (testing r) (sel_testing_status sel))
  && ((String.eqb (sel_equipment sel) "All" || cell_eq (equipment r) (sel_equipment sel))
  && (String.eqb (sel_weight_class sel) "All"
      || String.eqb (class r) (sel_weight_class sel))))).

(** A record with the given name, sex, equipment and division (taken as
    divisionRaw and divisionBase, untested) and no other cells. *)
Definition mk_person (n sx eq d : string) : Rec :=
  {| full_name := Some n; weight := Some 100%Q; class := "90"; division := Some d;
     division_raw := Some d; division_base := Some d; testing := Some "Untested";
     lift := "Squat"; record_type := EmptyString; record_name := EmptyString;
     sex := Some sx; equipment := Some eq; date := None; location := None |}.

End Opts.

(* ================================================================== *)
(** ** Lemmas on the string primitives *)

Module PyFacts.
Import Py.

Lemma str_app_assoc (a b c : string) : (a ++ b) ++ c = a ++ (b ++ c).
Proof. induction a as [|x a IH]; simpl; [reflexivity | now rewrite IH]. Qed.

Lemma str_app_nil_r (a : string) : a ++ EmptyString = a.
Proof. induction a as [|x a IH]; simpl; [reflexivity | now rewrite IH]. Qed.

Lemma str_length_app (a b : string) :
  String.length (a ++ b) = String.length a + String.length b.
Proof. induction a as [|x a IH]; simpl; [reflexivity | now rewrite IH]. Qed.

Lemma remove_suffix_sound (suf s p : string) :
  remove_suffix suf s = Some p -> s = p ++ suf.
Proof.
  revert p. induction s as [|c t IH]; intros p H; simpl in H.
  - destruct (String.eqb_spec suf EmptyString); inversion H; subst; reflexivity.
  - destruct (String.eqb_spec suf (String c t)) as [E|E].
    + inversion H; subst; reflexivity.
    + destruct (remove_suffix suf t) as [q|] eqn:Hq; simpl in H; inversion H; subst.
      simpl. f_equal. now apply IH.
Qed.

Lemma remove_suffix_unfold (suf s : string) :
  remove_suffix suf s =
  if String.eqb suf s then Some EmptyString
  else match s with
       | EmptyString => None
       | String c t => option_map (String c) (remove_suffix suf t)
       end.
Proof. destruct s; reflexivity. Qed.

Lemma remove_suffix_complete (suf p : string) :
  remove_suffix suf (p ++ suf) = Some p.
Proof.
  induction p as [|c p IH]; simpl.
  - rewrite remove_suffix_unfold. now rewrite String.eqb_refl.
  - destruct (String.eqb_spec suf (String c (p ++ suf))) as [E|E].
    + exfalso. apply (f_equal String.length) in E. simpl in E.
      rewrite str_length_app in E. lia.
    + now rewrite IH.
Qed.

Lemma endswith_iff (suf s : string) :
  endswith suf s = true <-> exists p, s = p ++ suf.
Proof.
  unfold endswith. split.
  - destruct (remove_suffix suf s) as [p|] eqn:H; [|discriminate].
    intros _. exists p. now apply remove_suffix_sound.
  - intros [p ->]. now rewrite remove_suffix_complete.
Qed.

Lemma remove_suffix_none (suf s : string) :
  remove_suffix suf s = None -> forall p, s <> p ++ suf.
Proof.
  intros H p ->. now rewrite remove_suffix_complete in H.
Qed.

(** The last character left by [rstrip] is never a blank. *)
Lemma rstrip_last (s p : string) (c : ascii) :
  rstrip s = p ++ String c EmptyString -> is_ws c = false.
Proof.
  revert p. induction s as [|a t IH]; intros p H; simpl in H.
  - destruct p; discriminate.
  - destruct (rstrip t) as [|b u] eqn:Ht.
    + destruct (is_ws a) eqn:Ha.
      * destruct p; discriminate.
      * destruct p as [|x p]; simpl in H.
        -- now inversion H; subst.
        -- inversion H as [[Hx Hp]]. destruct p; discriminate.
    + destruct p as [|x p]; simpl in H.
      * inversion H.
      * inversion H; subst. now apply (IH p).
Qed.





(** After [rstrip], [re.sub(r"DT$", "")] only ever removes a final "DT". *)
Lemma replace_DT_dollar_rstrip (s : string) :
  replace_DT_dollar (rstrip s) =
  match remove_suffix "DT" (rstrip s) with Some p => p | None => rstrip s end.
Proof.
  unfold replace_DT_dollar.
  destruct (remove_suffix "DT" (rstrip s)) as [p|]; [reflexivity|].
  destruct (remove_suffix ("DT" ++ nl) (rstrip s)) as [q|] eqn:Hq; [|reflexivity].
  exfalso. apply remove_suffix_sound in Hq.
  rewrite <- str_app_assoc in Hq. apply rstrip_last in Hq. discriminate.
Qed.

(** The number reading skips surrounding blanks and needs digits. *)
Example to_numeric_str_samples :
  Py.to_numeric_str " 100 " = Some (inject_Z 100)
  /\ Py.to_numeric_str "-2.5e1" = Some (inject_Z (-25))
  /\ Py.to_numeric_str ".5" = Some (5 # 10)%Q
  /\ Py.to_numeric_str "1e" = None
  /\ Py.to_numeric_str "abc" = None
  /\ Py.to_numeric_str "1 0" = None.
Proof. vm_compute. repeat split. Qed.

End PyFacts.

(* ================================================================== *)
(** ** Facts about [load_data] *)

Module LoadFacts.

Lemma load_data_in (rows : list RawRow) (r : Rec) :
  In r (load_data rows) <->
  exists raw, In raw rows
    /\ read_cell (raw_full_name raw) <> None
    /\ read_cell (raw_weight raw) <> None
    /\ is_invalid_class (class_of raw) = false
    /\ r = normalize_row raw.
Proof.
  unfold load_data. rewrite in_map_iff. split.
  - intros (raw & <- & Hin). apply filter_In in Hin as [Hin H2].
    apply filter_In in Hin as [Hin H1].
    apply andb_true_iff in H1 as [Hn Hw]. apply negb_true_iff in H2.
    exists raw. repeat split; auto.
    + destruct (read_cell (raw_full_name raw)); discriminate.
    + destruct (read_cell (raw_weight raw)); discriminate.
  - intros (raw & Hin & Hn & Hw & Hc & ->). exists raw. split; [reflexivity|].
    apply filter_In. split; [apply filter_In; split; [exact Hin|]|].
    + apply andb_true_iff. split.
      * destruct (read_cell (raw_full_name raw)); [reflexivity|congruence].
      * destruct (read_cell (raw_weight raw)); [reflexivity|congruence].
    + now rewrite Hc.
Qed.



(** The derived division columns on one stripped division text. *)
Lemma division_columns (d : string) :
  (forall p, Py.strip d = p ++ "DT" ->
     Py.replace_DT_dollar (Py.strip d) = p) /\
  ((forall p, Py.strip d <> p ++ "DT") ->
     Py.replace_DT_dollar (Py.strip d) = Py.strip d).
Proof.
  unfold Py.strip. rewrite PyFacts.replace_DT_dollar_rstrip. split.
  - intros p Hp. rewrite Hp, PyFacts.remove_suffix_complete. reflexivity.
  - intros Hnot. destruct (Py.remove_suffix "DT" (Py.rstrip (Py.lstrip d))) as [p|] eqn:E;
      [|reflexivity].
    apply PyFacts.remove_suffix_sound in E. now destruct (Hnot p).
Qed.

Lemma testing_of_tested (d : string) :
  testing_of d = "Tested" <-> exists p, d = p ++ "DT".
Proof.
  unfold testing_of. rewrite <- PyFacts.endswith_iff.
  destruct (Py.endswith "DT" d); split; intros H; congruence.
Qed.

Lemma lift_column (c : option string) :
  fillna (fillna_from (replace_lift c) c) EmptyString = lift_label_spec c.
Proof.
  destruct c as [s|]; [|reflexivity]. simpl.
  destruct (String.eqb s "S"); [reflexivity|].
  destruct (String.eqb s "B"); [reflexivity|].
  destruct (String.eqb s "D"); [reflexivity|].
  destruct (String.eqb s "T"); [reflexivity|].
  destruct (String.eqb s "Total"); reflexivity.
Qed.


Lemma load_data_rd_some (rd : Reader) (rows : list RawRow) (out : list Rec) :
  load_data_rd rd rows = Some out -> out = map (normalize_row_rd rd) (kept_rows rd rows).
Proof.
  unfold load_data_rd. destruct (rd_division_str rd); intros H; [|discriminate].
  now inversion H.
Qed.

Lemma Forall2_map_self {A B} (R : A -> B -> Prop) (f : A -> B) (l : list A) :
  (forall x, In x l -> R x (f x)) -> Forall2 R l (map f l).
Proof.
  induction l as [|x t IH]; intros H; simpl; constructor.
  - apply H. now left.
  - apply IH. intros y Hy. apply H. now right.
Qed.

Lemma option_map_id {A} (c : option A) : option_map (fun s => s) c = c.
Proof. now destruct c. Qed.

(** Reading every column as text gives [load_data]. *)
Lemma load_data_rd_text (rows : list RawRow) :
  load_data_rd text_reader rows = Some (load_data rows).
Proof.
  unfold load_data_rd, load_data, kept_rows. simpl. f_equal.
  assert (Hc : forall raw, class_of_rd text_reader raw = class_of raw).
  { intros raw. unfold class_of_rd, class_of. simpl. now rewrite option_map_id. }
  rewrite (filter_ext _ _ (fun raw => f_equal (fun c => negb (is_invalid_class c)) (Hc raw))).
  apply map_ext. intros raw.
  unfold normalize_row_rd, normalize_row, read_col, Py.to_numeric. simpl.
  rewrite !option_map_id, Hc. reflexivity.
Qed.

End LoadFacts.

(* ================================================================== *)
(** ** Claims on the normalizer *)

Module Normalizer.
Import LoadFacts.

Example load_data_empty_name :
  load_data [mk_raw EmptyString "100" "90" "Open" "S"] = [].
Proof. reflexivity. Qed.

Example load_data_junior_dt :
  map (fun r => (division_base r, testing r, lift r, weight r))
    (load_data [mk_raw "A" "102.5" " 90 " " JuniorDT " "S"])
  = [(Some "Junior", Some "Tested", "Squat", Some (1025 # 10)%Q)].
Proof. reflexivity. Qed.




(** C4: on every retained record, divisionBase is divisionRaw with one
    trailing "DT" removed when present and unchanged otherwise (missing
    stays missing); testingStatus is "Tested" exactly when divisionRaw ends
    with "DT"; a divisionRaw of exactly "DT" gives divisionBase "" and
    "Tested". *)
Theorem division_base_testing (rows : list RawRow) (r : Rec)
  (Hr : In r (load_data rows)) :
  (forall d, division_raw r = Some d ->
     (forall p, d = p ++ "DT" -> division_base r = Some p)
     /\ ((forall p, d <> p ++ "DT") -> division_base r = Some d))
  /\ (division_raw r = None -> division_base r = None)
  /\ (testing r = Some "Tested" <-> exists p, division_raw r = Some (p ++ "DT"))
  /\ (division_raw r = Some "DT" ->
        division_base r = Some EmptyString /\ testing r = Some "Tested").
Proof.
  apply load_data_in in Hr as (raw & _ & _ & _ & _ & ->). simpl.
  destruct (read_cell (raw_division raw)) as [x|]; simpl.
  - destruct (division_columns x) as [Hyes Hno].
    assert (Hb : forall d, Some (Py.strip x) = Some d ->
              (forall p, d = p ++ "DT" -> Some (Py.replace_DT_dollar (Py.strip x)) = Some p)
              /\ ((forall p, d <> p ++ "DT") ->
                  Some (Py.replace_DT_dollar (Py.strip x)) = Some d)).
    { intros d Hd. inversion Hd; subst d. split.
      - intros p Hp. now rewrite (Hyes p Hp).
      - intros Hn. now rewrite (Hno Hn). }
    split; [exact Hb|]. split; [discriminate|]. split.
    + split.
      * intros H. inversion H as [H']. apply testing_of_tested in H' as [p Hp].
        exists p. now rewrite Hp.
      * intros [p Hp]. inversion Hp as [Hp']. f_equal.
        apply testing_of_tested. now exists p.
    + intros H. destruct (Hb "DT" H) as [H1 _]. split.
      * exact (H1 EmptyString eq_refl).
      * f_equal. apply testing_of_tested. exists EmptyString.
        now inversion H.
  - split; [discriminate|]. split; [reflexivity|]. split; [|discriminate].
    split; [discriminate|]. intros [p Hp]; discriminate.
Qed.

Lemma division_base_testing_witness :
  division_base (normalize_row (mk_raw "A" "100" "90" " DT " "S")) = Some EmptyString
  /\ testing (normalize_row (mk_raw "A" "100" "90" " DT " "S")) = Some "Tested".
Proof.
  apply (division_base_testing [mk_raw "A" "100" "90" " DT " "S"]).
  - left. reflexivity.
  - reflexivity.
Defined.

(** C5 (counterexample): a divisionRaw of "JuniorDTDT" gives divisionBase
    "JuniorDT", which still ends with "DT". *)
Lemma C5_double_suffix :
  ~ (forall rows r, In r (load_data rows) ->
       forall b, division_base r = Some b -> Py.endswith "DT" b = false).
Proof.
  intros H.
  specialize (H [mk_raw "A" "100" "90" "JuniorDTDT" "S"]
                (normalize_row (mk_raw "A" "100" "90" "JuniorDTDT" "S"))
                (or_introl eq_refl) "JuniorDT" eq_refl).
  vm_compute in H. discriminate.
Qed.

(** C5 (amended): only one trailing "DT" is removed, so the divisionBase
    of a retained record ends with "DT" exactly when its divisionRaw ends
    with "DTDT". *)
Theorem division_base_suffix (rows : list RawRow) (r : Rec) (d : string)
  (Hr : In r (load_data rows)) (Hd : division_raw r = Some d) :
  exists b, division_base r = Some b
    /\ (Py.endswith "DT" b = true <-> exists p, d = p ++ "DTDT").
Proof.
  apply load_data_in in Hr as (raw & _ & _ & _ & _ & ->). simpl in *.
  destruct (read_cell (raw_division raw)) as [x|]; simpl in *; [|discriminate].
  inversion Hd; subst d. destruct (division_columns x) as [Hyes Hno].
  exists (Py.replace_DT_dollar (Py.strip x)). split; [reflexivity|].
  rewrite PyFacts.endswith_iff.
  destruct (Py.remove_suffix "DT" (Py.strip x)) as [p|] eqn:E.
  - apply PyFacts.remove_suffix_sound in E. rewrite (Hyes p E), E. split.
    + intros [q ->]. exists q. now rewrite PyFacts.str_app_assoc.
    + intros [q Hq]. exists q. change "DTDT" with ("DT" ++ "DT") in Hq.
      rewrite <- PyFacts.str_app_assoc in Hq.
      pose proof (f_equal (Py.remove_suffix "DT") Hq) as Hs.
      rewrite !PyFacts.remove_suffix_complete in Hs. now inversion Hs.
  - assert (Hn : forall p, Py.strip x <> p ++ "DT")
      by exact (PyFacts.remove_suffix_none _ _ E).
    rewrite (Hno Hn). split.
    + intros [q Hq]. now destruct (Hn q).
    + intros [q Hq]. change "DTDT" with ("DT" ++ "DT") in Hq.
      rewrite <- PyFacts.str_app_assoc in Hq.
      now destruct (Hn (q ++ "DT")).
Qed.

Lemma division_base_suffix_witness :
  exists b, division_base (normalize_row (mk_raw "A" "100" "90" "JuniorDTDT" "S"))
              = Some b
    /\ (Py.endswith "DT" b = true <-> exists p, "JuniorDTDT" = p ++ "DTDT").
Proof.
  apply (division_base_suffix [mk_raw "A" "100" "90" "JuniorDTDT" "S"]).
  - left. reflexivity.
  - reflexivity.
Defined.

(** C6 (counterexample): a row with no Sex, Equipment, Date or Location is
    retained with those cells still missing, not replaced by "". *)
Lemma C6_missing_sex_kept :
  ~ (forall rows r, In r (load_data rows) ->
       sex r <> None /\ equipment r <> None /\ date r <> None /\ location r <> None).
Proof.
  intros H.
  destruct (H [mk_raw "A" "100" "90" "Open" "S"]
              (normalize_row (mk_raw "A" "100" "90" "Open" "S"))
              (or_introl eq_refl)) as [Hs _].
  apply Hs. reflexivity.
Qed.

(** C6 (amended): on the record of each kept row, a missing recordType,
    recordName or lift cell becomes the empty string, while sex,
    equipment, date and eventLocation are kept as read, a missing value
    staying missing; whatever dtypes [pd.read_csv] infers. *)
Theorem missing_cells (rd : Reader) (rows : list RawRow) (out : list Rec)
  (Hout : load_data_rd rd rows = Some out) :
  Forall2 (fun raw r =>
      record_type r = fillna (read_col rd CRecordType (raw_record_type raw)) EmptyString
      /\ record_name r = fillna (read_col rd CRecordName (raw_record_name raw)) EmptyString
      /\ (read_cell (raw_lift raw) = None -> lift r = EmptyString)
      /\ sex r = read_col rd CSex (raw_sex raw)
      /\ equipment r = read_col rd CEquipment (raw_equipment raw)
      /\ date r = read_col rd CDate (raw_date raw)
      /\ location r = read_col rd CLocation (raw_location raw))
    (kept_rows rd rows) out.
Proof.
  apply load_data_rd_some in Hout as ->. apply Forall2_map_self. intros raw _.
  repeat split. intros E. unfold normalize_row_rd, read_col. simpl. now rewrite E.
Qed.

Lemma missing_cells_witness :
  load_data_rd text_reader [mk_raw "A" "100" "90" "Open" EmptyString]
    = Some [normalize_row_rd text_reader (mk_raw "A" "100" "90" "Open" EmptyString)]
  /\ Forall2 (fun raw r =>
      record_type r = fillna (read_col text_reader CRecordType (raw_record_type raw)) EmptyString
      /\ record_name r = fillna (read_col text_reader CRecordName (raw_record_name raw))
                           EmptyString
      /\ (read_cell (raw_lift raw) = None -> lift r = EmptyString)
      /\ sex r = read_col text_reader CSex (raw_sex raw)
      /\ equipment r = read_col text_reader CEquipment (raw_equipment raw)
      /\ date r = read_col text_reader CDate (raw_date raw)
      /\ location r = read_col text_reader CLocation (raw_location raw))
    (kept_rows text_reader [mk_raw "A" "100" "90" "Open" EmptyString])
    [normalize_row_rd text_reader (mk_raw "A" "100" "90" "Open" EmptyString)].
Proof.
  split; [reflexivity|].
  apply missing_cells. reflexivity.
Defined.

(** C9: the lift of the record of each kept row is that row's lift code
    mapped by S->Squat, B->Bench, D->Deadlift, T->Total, Total->Total, any
    other code unchanged and a missing code as the empty string, whatever
    dtypes [pd.read_csv] infers; on a table of text cells "S" gives
    "Squat", "B" gives "Bench", "X" stays "X" and an empty cell gives "". *)
Theorem lift_mapping (rd : Reader) (rows : list RawRow) (out : list Rec)
  (Hout : load_data_rd rd rows = Some out) :
  Forall2 (fun raw r => lift r = lift_label_spec (read_col rd CLift (raw_lift raw)))
    (kept_rows rd rows) out
  /\ option_map (map lift)
       (load_data_rd text_reader [mk_raw "A" "100" "90" "Open" "S";
                                  mk_raw "A" "100" "90" "Open" "B";
                                  mk_raw "A" "100" "90" "Open" "X";
                                  mk_raw "A" "100" "90" "Open" EmptyString])
     = Some ["Squat"; "Bench"; "X"; EmptyString].
Proof.
  split; [|reflexivity].
  apply load_data_rd_some in Hout as ->. apply Forall2_map_self. intros raw _.
  apply lift_column.
Qed.

Lemma lift_mapping_witness :
  load_data_rd text_reader [mk_raw "A" "100" "90" "Open" "D"]
    = Some [normalize_row_rd text_reader (mk_raw "A" "100" "90" "Open" "D")]
  /\ Forall2 (fun raw r => lift r = lift_label_spec (read_col text_reader CLift (raw_lift raw)))
       (kept_rows text_reader [mk_raw "A" "100" "90" "Open" "D"])
       [normalize_row_rd text_reader (mk_raw "A" "100" "90" "Open" "D")].
Proof.
  split; [reflexivity|].
  apply (lift_mapping text_reader [mk_raw "A" "100" "90" "Open" "D"]). reflexivity.
Defined.

End Normalizer.

(* ================================================================== *)
(** ** Facts about the search and the discipline tabs *)

Module RxFacts.
Import Rx.

Lemma match_here_lits (p s : string) :
  match_here (lits p) s = starts_with (lower p) (lower s).
Proof.
  revert s. induction p as [|a p IH]; intros s; [reflexivity|].
  destruct s as [|b s]; [reflexivity|]. simpl. now rewrite IH.
Qed.

Lemma search_branch_lits (p s : string) :
  search_branch (lits p) s = occurs_in (lower p) (lower s).
Proof.
  induction s as [|b s IH]; simpl; rewrite match_here_lits; [reflexivity|].
  now rewrite IH.
Qed.

Lemma search_cell_lits (p s : string) :
  search_cell [lits p] (Some s) = contains_ci p s.
Proof. simpl. rewrite orb_false_r. apply search_branch_lits. Qed.

Lemma split_bar_plain (p : string) : plain p = true -> split_bar p = [p].
Proof.
  induction p as [|c p IH]; simpl; [reflexivity|].
  intros H. apply andb_true_iff in H as [Hc Hp].
  apply negb_true_iff, orb_false_iff in Hc as [_ Hbar].
  rewrite Hbar, (IH Hp). reflexivity.
Qed.

Lemma parse_branch_plain (p : string) : plain p = true -> parse_branch p = Some (lits p).
Proof.
  induction p as [|c p IH]; simpl; [reflexivity|].
  intros H. apply andb_true_iff in H as [Hc Hp].
  apply negb_true_iff, orb_false_iff in Hc as [Hc _].
  apply orb_false_iff in Hc as [Hm Hdot].
  rewrite Hdot, Hm, (IH Hp). reflexivity.
Qed.

(** For a search text without regex metacharacters the pattern is the
    literal text. *)
Lemma parse_pattern_plain (p : string) :
  plain p = true -> parse_pattern p = Some [lits p].
Proof.
  intros H. unfold parse_pattern. rewrite (split_bar_plain p H). simpl.
  now rewrite (parse_branch_plain p H).
Qed.

(** [apply_filters] with only a search text, when that text has no regex
    metacharacter, is the spec's literal search. *)
Lemma apply_filters_plain_search (df : list Rec) (p : string) :
  p <> EmptyString -> plain p = true ->
  apply_filters df (search_sel p) = Some (search_spec df p).
Proof.
  intros Hne Hp. unfold apply_filters, apply_filters_rx, fragment_rx, search_spec.
  destruct p as [|c t]; [congruence|].
  cbn -[lits search_cell parse_pattern contains_ci].
  rewrite (parse_pattern_plain _ Hp). cbn -[lits search_cell contains_ci]. f_equal.
  apply filter_ext. intros r. rewrite search_cell_lits.
  destruct (full_name r) as [n|].
  - now rewrite search_cell_lits.
  - reflexivity.
Qed.

End RxFacts.

Module Query.
Import RxFacts.

(** C3 (code bug): [apply_filters] hands the search text to
    [str.contains] as a regular expression, so the search "a.c" keeps a
    record named "abc" that does not contain "a.c" literally; the spec's
    own scenario ("jun" matches "June Smith", not "John Doe") holds. *)
Theorem search_is_regex :
  apply_filters [mk_rec "abc" EmptyString 100 "90" "Squat"] (search_sel "a.c")
    = Some [mk_rec "abc" EmptyString 100 "90" "Squat"]
  /\ search_spec [mk_rec "abc" EmptyString 100 "90" "Squat"] "a.c" = []
  /\ apply_filters [mk_rec "June Smith" EmptyString 100 "90" "Squat";
                    mk_rec "John Doe" EmptyString 100 "90" "Squat"] (search_sel "jun")
     = Some [mk_rec "June Smith" EmptyString 100 "90" "Squat"]
  /\ Rx.parse_pattern "(" = None.
Proof. repeat split; vm_compute; reflexivity. Qed.

(** C7: the Full Power tab keeps exactly the records whose recordType does
    not contain "Single" (ignoring case); the Single Lifts tab keeps
    exactly the records whose recordType contains "Single", "Bench Only"
    or "Deadlift Only" (ignoring case) and whose lift is Bench or
    Deadlift. *)
Theorem discipline_tabs (filtered : list Rec) :
  full_power filtered =
    Some (filter (fun r => negb (Rx.contains_ci "Single" (record_type r))) filtered)
  /\ single_lifts filtered =
    Some (filter (fun r => (Rx.contains_ci "Single" (record_type r)
                            || Rx.contains_ci "Bench Only" (record_type r)
                            || Rx.contains_ci "Deadlift Only" (record_type r))
                           && (String.eqb (lift r) "Bench"
                               || String.eqb (lift r) "Deadlift")) filtered).
Proof.
  split.
  - unfold full_power. rewrite (parse_pattern_plain "Single" eq_refl).
    cbv iota beta. f_equal. apply filter_ext. intros r. now rewrite search_cell_lits.
  - unfold single_lifts.
    change (Rx.parse_pattern "Single|Bench Only|Deadlift Only")
      with (Some [Rx.lits "Single"; Rx.lits "Bench Only"; Rx.lits "Deadlift Only"]).
    cbv iota beta. f_equal. apply filter_ext. intros r.
    cbn [Rx.search_cell existsb]. rewrite !search_branch_lits, !orb_false_r.
    unfold Rx.contains_ci. now rewrite !orb_assoc.
Qed.

(** C10: with every choice "All" and an empty search, [apply_filters]
    returns its input, the same records in the same order (the input list
    itself is never changed: the model has no mutable state). *)
Theorem apply_filters_all (df : list Rec) :
  apply_filters df (search_sel EmptyString) = Some df.
Proof. reflexivity. Qed.

End Query.

(* ================================================================== *)
(** ** Facts about [best_per_class_and_lift] *)

Module BestFacts.
Import Best.

Lemma key_eqb_iff (k k' : string * string) : key_eqb k k' = true <-> k = k'.
Proof.
  destruct k as [a b], k' as [a' b']. unfold key_eqb. simpl.
  rewrite andb_true_iff, !String.eqb_eq. split.
  - intros [-> ->]. reflexivity.
  - intros H. inversion H. auto.
Qed.

Lemma existsb_key_false (k : string * string) (seen : list (string * string)) :
  existsb (key_eqb k) seen = false <-> ~ In k seen.
Proof.
  rewrite <- not_true_iff_false, existsb_exists. split.
  - intros H Hin. apply H. exists k. split; [exact Hin|]. now apply key_eqb_iff.
  - intros H (k' & Hin & Hk). apply key_eqb_iff in Hk. subst k'. contradiction.
Qed.

Lemma drop_duplicates_props (seen : list (string * string)) (l : list Rec) :
  NoDup (map class_lift (drop_duplicates seen l))
  /\ forall o, In o (drop_duplicates seen l) -> In o l /\ ~ In (class_lift o) seen.
Proof.
  revert seen. induction l as [|r t IH]; intros seen; simpl.
  - split; [constructor | contradiction].
  - destruct (existsb (key_eqb (class_lift r)) seen) eqn:E.
    + destruct (IH seen) as [Hnd Hin]. split; [exact Hnd|].
      intros o Ho. destruct (Hin o Ho). split; [now right | assumption].
    + destruct (IH (class_lift r :: seen)) as [Hnd Hin]. split.
      * simpl. constructor; [|exact Hnd].
        intros Hk. apply in_map_iff in Hk as (o & Hok & Ho).
        destruct (Hin o Ho) as [_ Hn]. apply Hn. rewrite Hok. now left.
      * intros o [<-|Ho].
        -- split; [now left|]. now apply existsb_key_false.
        -- destruct (Hin o Ho) as [Ht Hn]. split; [now right|].
           intros Hs. apply Hn. now right.
Qed.

(** On a list sorted by [R], the row kept for a key comes no later than
    any other row with that key. *)
Lemma drop_duplicates_first (R : Rec -> Rec -> Prop) (Rrefl : forall x, R x x)
  (seen : list (string * string)) (l : list Rec) :
  StronglySorted R l ->
  forall r, In r l -> ~ In (class_lift r) seen ->
  exists o, In o (drop_duplicates seen l) /\ class_lift o = class_lift r /\ R o r.
Proof.
  revert seen. induction l as [|x t IH]; intros seen Hs r Hr Hn; [contradiction|].
  apply StronglySorted_inv in Hs as [Hst Hall]. simpl.
  destruct (existsb (key_eqb (class_lift x)) seen) eqn:E.
  - destruct Hr as [<-|Hr].
    + exfalso. apply existsb_key_false in Hn. congruence.
    + exact (IH seen Hst r Hr Hn).
  - destruct (key_eqb (class_lift x) (class_lift r)) eqn:Ek.
    + apply key_eqb_iff in Ek. exists x. split; [now left|]. split; [exact Ek|].
      destruct Hr as [<-|Hr]; [apply Rrefl|].
      rewrite Forall_forall in Hall. now apply Hall.
    + assert (Hxr : x <> r) by (intros <-; now rewrite (proj2 (key_eqb_iff _ _) eq_refl) in Ek).
      destruct Hr as [Hr|Hr]; [contradiction|].
      assert (Hn' : ~ In (class_lift r) (class_lift x :: seen)).
      { intros [Hk|Hk]; [|contradiction]. rewrite Hk in Ek.
        now rewrite (proj2 (key_eqb_iff _ _) eq_refl) in Ek. }
      destruct (IH _ Hst r Hr Hn') as (o & Ho & Hk & HR).
      exists o. split; [now right|]. auto.
Qed.

Lemma weight_desc_refl (a : Rec) : weight_desc_leb a a = true.
Proof.
  unfold weight_desc_leb. destruct (weight a); [|reflexivity].
  apply Qle_bool_iff, Qle_refl.
Qed.

Lemma weight_desc_trans (a b c : Rec) :
  weight_desc_leb a b = true -> weight_desc_leb b c = true -> weight_desc_leb a c = true.
Proof.
  unfold weight_desc_leb.
  destruct (weight a) as [x|], (weight b) as [y|], (weight c) as [z|];
    try discriminate; try reflexivity.
  rewrite !Qle_bool_iff. intros H1 H2. eapply Qle_trans; eassumption.
Qed.

Lemma weight_desc_total (a b : Rec) :
  weight_desc_leb a b = false -> weight_desc_leb b a = true.
Proof.
  unfold weight_desc_leb.
  destruct (weight a) as [x|], (weight b) as [y|]; try discriminate; try reflexivity.
  intros H. apply Qle_bool_iff. apply Qlt_le_weak, Qnot_le_lt.
  intros Hle. apply Qle_bool_iff in Hle. congruence.
Qed.

Section KeyOrder.
Context {N : Type} (ncmp : N -> N -> comparison) (num : string -> option N).
Hypothesis ncmp_antisym : forall x y, ncmp y x = CompOpp (ncmp x y).

Lemma key_cmp_by_antisym (a b : Rec) :
  key_cmp_by ncmp num b a = CompOpp (key_cmp_by ncmp num a b).
Proof.
  unfold key_cmp_by.
  assert (Hn : cmp_num_by ncmp (num (class b)) (num (class a))
               = CompOpp (cmp_num_by ncmp (num (class a)) (num (class b)))).
  { unfold cmp_num_by. destruct (num (class a)), (num (class b)); try reflexivity.
    apply ncmp_antisym. }
  rewrite Hn. destruct (cmp_num_by ncmp (num (class a)) (num (class b))); try reflexivity.
  simpl. rewrite (String.compare_antisym (class b) (class a)).
  destruct (String.compare (class a) (class b)); try reflexivity.
  simpl. apply Nat.compare_antisym.
Qed.

Lemma key_total_by (a b : Rec) :
  key_leb_by ncmp num a b = false -> key_leb_by ncmp num b a = true.
Proof.
  unfold key_leb_by. rewrite (key_cmp_by_antisym a b).
  destruct (key_cmp_by ncmp num a b); simpl; intros H; congruence.
Qed.

End KeyOrder.

Lemma key_total (a b : Rec) : key_leb a b = false -> key_leb b a = true.
Proof. apply key_total_by. intros x y. symmetry. apply Qcompare_antisym. Qed.

(** Insertion sort returns a sorted permutation for any total test. *)
Lemma insert_by_perm (leb : Rec -> Rec -> bool) (x : Rec) (l : list Rec) :
  Permutation (x :: l) (insert_by leb x l).
Proof.
  induction l as [|y t IH]; simpl; [reflexivity|].
  destruct (leb x y); [reflexivity|].
  eapply perm_trans; [apply perm_swap|]. now constructor.
Qed.

Lemma isort_perm (leb : Rec -> Rec -> bool) (l : list Rec) : Permutation l (isort leb l).
Proof.
  induction l as [|x t IH]; simpl; [reflexivity|].
  eapply perm_trans; [apply perm_skip, IH | apply insert_by_perm].
Qed.

Lemma insert_by_sorted (leb : Rec -> Rec -> bool)
  (Htot : forall a b, leb a b = false -> leb b a = true) (x : Rec) (l : list Rec) :
  Sorted (fun a b => leb a b = true) l ->
  Sorted (fun a b => leb a b = true) (insert_by leb x l).
Proof.
  induction l as [|y t IH]; intros Hs; simpl.
  - repeat constructor.
  - destruct (leb x y) eqn:E.
    + constructor; [exact Hs | now constructor].
    + apply Sorted_inv in Hs as [Hst Hhd]. constructor; [now apply IH|].
      destruct t as [|z u]; simpl.
      * constructor. now apply Htot.
      * destruct (leb x z); constructor; [now apply Htot|].
        now apply HdRel_inv in Hhd.
Qed.

Lemma isort_sorted (leb : Rec -> Rec -> bool)
  (Htot : forall a b, leb a b = false -> leb b a = true) (l : list Rec) :
  Sorted (fun a b => leb a b = true) (isort leb l).
Proof.
  induction l as [|x t IH]; simpl; [constructor|]. now apply insert_by_sorted.
Qed.

Lemma sorted_impl (R R' : Rec -> Rec -> Prop) (HR : forall a b, R a b -> R' a b)
  (l : list Rec) : Sorted R l -> Sorted R' l.
Proof.
  induction 1 as [|x t Hs IH Hhd]; constructor; [exact IH|].
  destruct Hhd; constructor. now apply HR.
Qed.

Lemma lift_order_rank (r : Rec) :
  lift_order r = (if Nat.eqb (lift_rank r) 4 then 99 else lift_rank r)
  /\ lift_rank r <= 4.
Proof.
  unfold lift_order, lift_rank, LIFT_ORDER. simpl.
  destruct (String.eqb (lift r) "Squat"); [simpl; lia|].
  destruct (String.eqb (lift r) "Bench"); [simpl; lia|].
  destruct (String.eqb (lift r) "Deadlift"); [simpl; lia|].
  destruct (String.eqb (lift r) "Total"); simpl; lia.
Qed.

(** The key the code sorts on implies the amended order, whatever the
    numeric reading of the class text. *)
Lemma key_leb_amended {N : Type} (ncmp : N -> N -> comparison)
  (num : string -> option N) (a b : Rec) :
  key_leb_by ncmp num a b = true -> amended_leb_by ncmp num a b = true.
Proof.
  unfold key_leb_by, key_cmp_by, amended_leb_by.
  assert (Htext : match String.compare (class a) (class b) with
                  | Eq => Nat.compare (lift_order a) (lift_order b)
                  | c => c end <> Gt ->
                  (String.ltb (class a) (class b)
                   || (String.eqb (class a) (class b)
                       && Nat.leb (lift_rank a) (lift_rank b))) = true).
  { unfold String.ltb. destruct (String.compare (class a) (class b)) eqn:Ec;
      [|reflexivity|congruence].
    apply String.compare_eq_iff in Ec. rewrite Ec, String.eqb_refl. simpl.
    intros H. apply Nat.leb_le. rewrite Nat.compare_gt_iff in H.
    destruct (lift_order_rank a) as [Ha Ra], (lift_order_rank b) as [Hb Rb].
    destruct (Nat.eqb_spec (lift_rank a) 4), (Nat.eqb_spec (lift_rank b) 4); lia. }
  assert (Hgt : forall c : comparison, match c with Gt => false | _ => true end = true ->
                  c <> Gt) by (intros []; congruence).
  destruct (num (class a)) as [x|], (num (class b)) as [y|]; simpl.
  - destruct (ncmp x y); intros H; [apply Htext, Hgt, H|reflexivity|discriminate].
  - reflexivity.
  - discriminate.
  - intros H. apply Htext, Hgt, H.
Qed.

End BestFacts.

(* ================================================================== *)
(** ** Claims on [best_per_class_and_lift] *)

Module BestClaims.
Import Best BestFacts.

Section AnySorts.

Variables sort_weight_desc sort_keys : list Rec -> list Rec.
Hypothesis sort_weight_desc_perm : forall l, Permutation l (sort_weight_desc l).
Hypothesis sort_weight_desc_sorted :
  forall l, Sorted (fun a b => weight_desc_leb a b = true) (sort_weight_desc l).
Hypothesis sort_keys_perm : forall l, Permutation l (sort_keys l).

(** C2: [best_per_class_and_lift] returns at most one record per
    (weightClass, lift) pair, only input records, one for every pair of
    the input, and that record's weight is at least the weight of every
    input record of its pair (records whose weight is NaN set no bound);
    the empty input gives the empty output. *)
Theorem best_per_class_and_lift_max (df : list Rec) :
  let out := best_per_class_and_lift sort_weight_desc sort_keys df in
  NoDup (map class_lift out)
  /\ (forall o, In o out -> In o df)
  /\ (forall r, In r df ->
        exists o, In o out /\ class_lift o = class_lift r
          /\ forall w, weight r = Some w ->
             exists w', weight o = Some w' /\ (w <= w')%Q)
  /\ best_per_class_and_lift sort_weight_desc sort_keys [] = [].
Proof.
  intros out. unfold out, best_per_class_and_lift.
  set (s := sort_weight_desc df).
  destruct (drop_duplicates_props [] s) as [Hnd Hin].
  pose proof (sort_keys_perm (drop_duplicates [] s)) as Hp.
  split; [|split; [|split]].
  - eapply Permutation_NoDup; [apply Permutation_map, Hp | exact Hnd].
  - intros o Ho. apply (Permutation_in _ (Permutation_sym Hp)) in Ho.
    destruct (Hin o Ho) as [Hs _].
    exact (Permutation_in _ (Permutation_sym (sort_weight_desc_perm df)) Hs).
  - intros r Hr.
    assert (Hss : StronglySorted (fun a b => weight_desc_leb a b = true) s).
    { apply Sorted_StronglySorted; [exact weight_desc_trans|].
      apply sort_weight_desc_sorted. }
    destruct (drop_duplicates_first _ weight_desc_refl [] s Hss r
                (Permutation_in _ (sort_weight_desc_perm df) Hr) (fun H => H))
      as (o & Ho & Hk & Hw).
    exists o. split; [exact (Permutation_in _ Hp Ho)|]. split; [exact Hk|].
    intros w Hrw. unfold weight_desc_leb in Hw. rewrite Hrw in Hw.
    destruct (weight o) as [w'|]; [|discriminate].
    exists w'. split; [reflexivity|]. now apply Qle_bool_iff.
  - pose proof (sort_weight_desc_perm []) as H0.
    apply Permutation_nil in H0. rewrite H0. simpl.
    pose proof (sort_keys_perm []) as H1.
    now apply Permutation_nil in H1.
Qed.

End AnySorts.

Section AnyNumbers.

(** [num] reads a class text as a number ([pd.to_numeric] reads it as a
    float, +-inf included) and [ncmp] compares two numbers; [sort_keys]
    is any sort by the key these give. *)
Context {N : Type} (ncmp : N -> N -> comparison) (num : string -> option N).
Variables sort_weight_desc sort_keys : list Rec -> list Rec.
Hypothesis sort_keys_sorted :
  forall l, Sorted (fun a b => key_leb_by ncmp num a b = true) (sort_keys l).

(** C8 (amended): consecutive output records are ordered by the numeric
    value of weightClass ascending, non-numeric classes after all numeric
    ones; records whose classes are equal as numbers, or both
    non-numeric, are ordered by the weightClass text and then by lift in
    the sequence Squat, Bench, Deadlift, Total, other labels last.  This
    holds for every numeric reading of the class text and every order on
    the numbers. *)
Theorem best_per_class_and_lift_order (df : list Rec) :
  Sorted (fun a b => amended_leb_by ncmp num a b = true)
    (best_per_class_and_lift sort_weight_desc sort_keys df).
Proof.
  unfold best_per_class_and_lift. eapply sorted_impl; [|apply sort_keys_sorted].
  apply key_leb_amended.
Qed.

End AnyNumbers.

(** The spec's end-to-end scenario, with insertion sort for both sorts. *)
Example best_scenario :
  best_isort [mk_rec "A" EmptyString 200 "90" "Squat";
              mk_rec "B" EmptyString 250 "90" "Squat";
              mk_rec "C" EmptyString 150 "100" "Bench"]
  = [mk_rec "B" EmptyString 250 "90" "Squat";
     mk_rec "C" EmptyString 150 "100" "Bench"].
Proof. vm_compute. reflexivity. Qed.

Lemma best_per_class_and_lift_max_witness :
  let df := [mk_rec "A" EmptyString 200 "90" "Squat";
             mk_rec "B" EmptyString 250 "90" "Squat";
             mk_rec "C" EmptyString 150 "100" "Bench"] in
  let out := best_per_class_and_lift (isort weight_desc_leb) (isort key_leb) df in
  NoDup (map class_lift out)
  /\ (forall o, In o out -> In o df)
  /\ (forall r, In r df ->
        exists o, In o out /\ class_lift o = class_lift r
          /\ forall w, weight r = Some w ->
             exists w', weight o = Some w' /\ (w <= w')%Q)
  /\ best_per_class_and_lift (isort weight_desc_leb) (isort key_leb) [] = [].
Proof.
  apply (best_per_class_and_lift_max (isort weight_desc_leb) (isort key_leb)).
  - apply isort_perm.
  - apply isort_sorted. exact weight_desc_total.
  - apply isort_perm.
Defined.

Lemma best_per_class_and_lift_order_witness :
  Sorted (fun a b => amended_leb_by Qcompare Py.to_numeric_str a b = true)
    (best_isort [mk_rec "A" EmptyString 100 "90.0" "Squat";
                 mk_rec "B" EmptyString 100 "90" "Bench"]).
Proof.
  apply (best_per_class_and_lift_order Qcompare Py.to_numeric_str
           (isort weight_desc_leb) (isort key_leb)).
  apply isort_sorted. exact key_total.
Defined.

(** C8 (counterexample): classes "90" and "90.0" are the same number, yet
    the Bench record of "90" comes before the Squat record of "90.0",
    because the class text is compared before the lift. *)
Lemma C8_text_before_lift :
  ~ Sorted (fun a b => claim_leb a b = true)
      (best_isort [mk_rec "A" EmptyString 100 "90.0" "Squat";
                   mk_rec "B" EmptyString 100 "90" "Bench"]).
Proof.
  assert (E : best_isort [mk_rec "A" EmptyString 100 "90.0" "Squat";
                          mk_rec "B" EmptyString 100 "90" "Bench"]
              = [mk_rec "B" EmptyString 100 "90" "Bench";
                 mk_rec "A" EmptyString 100 "90.0" "Squat"])
    by (vm_compute; reflexivity).
  rewrite E. intros H. apply Sorted_inv in H as [_ Hhd].
  apply HdRel_inv in Hhd. vm_compute in Hhd. discriminate.
Qed.

End BestClaims.

(* ================================================================== *)
(** ** Further properties of [apply_filters] and [load_data] *)

Module FilterFacts.
Import Opts.

Lemma filter_filter_and (f g : Rec -> bool) (l : list Rec) :
  filter g (filter f l) = filter (fun x => f x && g x) l.
Proof.
  induction l as [|x t IH]; simpl; [reflexivity|].
  destruct (f x); simpl; [destruct (g x)|]; simpl; now rewrite IH.
Qed.

Lemma filter_all_true (l : list Rec) : filter (fun _ => true) l = l.
Proof. induction l as [|x t IH]; simpl; [reflexivity|]. now rewrite IH. Qed.

Lemma filter_none (f : Rec -> bool) (l : list Rec) :
  (forall x, In x l -> f x = false) -> filter f l = [].
Proof.
  induction l as [|x t IH]; simpl; intros H; [reflexivity|].
  rewrite (H x (or_introl eq_refl)). apply IH. intros y Hy. apply H. now right.
Qed.

Lemma if_filter (b : bool) (f : Rec -> bool) (l : list Rec) :
  (if b then l else filter f l) = filter (fun x => b || f x) l.
Proof. destruct b; simpl; [now rewrite filter_all_true | reflexivity]. Qed.

Lemma filter_idem (f : Rec -> bool) (l : list Rec) : filter f (filter f l) = filter f l.
Proof.
  rewrite filter_filter_and. apply filter_ext. intros x. apply andb_diag.
Qed.

(** [apply_filters] is one pass of [filter] by the conjunction of the
    box tests and the search test, whatever the regex engine. *)
Lemma apply_filters_rx_shape (rx : string -> option (string -> bool))
  (df : list Rec) (sel : Sel) :
  apply_filters_rx rx df sel =
  match sel_search sel with
  | EmptyString => Some (filter (fields_ok sel) df)
  | pat =>
      match rx pat with
      | Some m => Some (filter (fun r => fields_ok sel r
                                  && (match full_name r with
                                      | Some n => m n
                                      | None => false
                                      end || m (record_name r))) df)
      | None => None
      end
  end.
Proof.
  unfold apply_filters_rx. cbv zeta. rewrite !if_filter, !filter_filter_and.
  destruct (sel_search sel) as [|c t].
  - reflexivity.
  - destruct (rx (String c t)); [|reflexivity].
    rewrite filter_filter_and. reflexivity.
Qed.

Lemma apply_filters_shape (df : list Rec) (sel : Sel) :
  apply_filters df sel =
  match sel_search sel with
  | EmptyString => Some (filter (fields_ok sel) df)
  | pat =>
      match Rx.parse_pattern pat with
      | Some bs => Some (filter (fun r => fields_ok sel r
                                   && (Rx.search_cell bs (full_name r)
                                       || Rx.search_cell bs (Some (record_name r)))) df)
      | None => None
      end
  end.
Proof.
  unfold apply_filters. rewrite apply_filters_rx_shape.
  destruct (sel_search sel) as [|c t]; [reflexivity|].
  unfold fragment_rx. destruct (Rx.parse_pattern (String c t)); [|reflexivity].
  simpl. f_equal.
Qed.

Lemma cell_eq_iff (c : option string) (v : string) : cell_eq c v = true <-> c = Some v.
Proof.
  destruct c as [x|]; simpl; [rewrite String.eqb_eq|]; split; congruence.
Qed.

Lemma fields_ok_iff (sel : Sel) (r : Rec) :
  fields_ok sel r = true <->
  (sel_sex sel = "All" \/ sex r = Some (sel_sex sel))
  /\ (sel_division sel = "All" \/ division_base r = Some (sel_division sel))
  /\ (sel_testing_status sel = "All" \/ testing r = Some (sel_testing_status sel))
  /\ (sel_equipment sel = "All" \/ equipment r = Some (sel_equipment sel))
  /\ (sel_weight_class sel = "All" \/ class r = sel_weight_class sel).
Proof.
  unfold fields_ok. rewrite !andb_true_iff, !orb_true_iff, !String.eqb_eq, !cell_eq_iff.
  split; intros (H1 & H2 & H3 & H4 & H5); tauto.
Qed.

Lemma load_class_valid (rows : list RawRow) (r : Rec) :
  In r (load_data rows) -> is_invalid_class (class r) = false.
Proof.
  intros Hr. apply LoadFacts.load_data_in in Hr as (raw & _ & _ & _ & Hc & ->).
  exact Hc.
Qed.

End FilterFacts.

Module FilterExtras.
Import Opts FilterFacts.

(** Whatever regex engine runs the search, [apply_filters] either fails
    on its search pattern (the pattern does not compile) whatever the
    records, or is a single order-preserving [filter] whose test is the
    conjunction of the tests of the boxes not at "All" and of the search. *)
Theorem apply_filters_conjunction (rx : string -> option (string -> bool)) (sel : Sel) :
  (sel_search sel <> EmptyString /\ rx (sel_search sel) = None
   /\ forall df, apply_filters_rx rx df sel = None)
  \/ exists f : Rec -> bool,
       (forall df, apply_filters_rx rx df sel = Some (filter f df))
       /\ forall r, f r = true <->
          (sel_sex sel = "All" \/ sex r = Some (sel_sex sel))
          /\ (sel_division sel = "All" \/ division_base r = Some (sel_division sel))
          /\ (sel_testing_status sel = "All" \/ testing r = Some (sel_testing_status sel))
          /\ (sel_equipment sel = "All" \/ equipment r = Some (sel_equipment sel))
          /\ (sel_weight_class sel = "All" \/ class r = sel_weight_class sel)
          /\ (sel_search sel = EmptyString
              \/ exists m, rx (sel_search sel) = Some m
                   /\ ((exists n, full_name r = Some n /\ m n = true)
                       \/ m (record_name r) = true)).
Proof.
  destruct (sel_search sel) as [|c t] eqn:Es.
  - right. exists (fields_ok sel). split.
    + intros df. rewrite apply_filters_rx_shape, Es. reflexivity.
    + intros r. rewrite fields_ok_iff. intuition.
  - destruct (rx (String c t)) as [m|] eqn:Ep.
    + right. eexists. split.
      * intros df. rewrite apply_filters_rx_shape, Es, Ep. reflexivity.
      * intros r. rewrite andb_true_iff, fields_ok_iff, orb_true_iff.
        assert (Hn : match full_name r with Some n => m n | None => false end = true
                     <-> exists n, full_name r = Some n /\ m n = true).
        { destruct (full_name r) as [n|]; split.
          - intros H. now exists n.
          - intros (n' & Hn' & H). now inversion Hn'; subst.
          - discriminate.
          - intros (n' & Hn' & _). discriminate. }
        rewrite Hn. split.
        -- intros [H1 H2]. intuition (right; exists m; auto).
        -- intros (H1 & H2 & H3 & H4 & H5 & [H6|(m' & Hm & H6)]); [discriminate|].
           inversion Hm; subst m'. tauto.
    + left. split; [discriminate|]. split; [reflexivity|].
      intros df. rewrite apply_filters_rx_shape, Es, Ep. reflexivity.
Qed.

(** Filtering an already filtered table again with the same selection
    changes nothing, whatever regex engine runs the search. *)
Theorem apply_filters_idempotent (rx : string -> option (string -> bool))
  (df l : list Rec) (sel : Sel) :
  apply_filters_rx rx df sel = Some l -> apply_filters_rx rx l sel = Some l.
Proof.
  rewrite !apply_filters_rx_shape. destruct (sel_search sel) as [|c t].
  - intros H. inversion H. now rewrite filter_idem.
  - destruct (rx (String c t)); [|discriminate].
    intros H. inversion H. now rewrite filter_idem.
Qed.

Lemma apply_filters_idempotent_witness :
  apply_filters_rx fragment_rx [mk_rec "June Smith" EmptyString 100 "90" "Squat"]
    (search_sel "jun")
    = Some [mk_rec "June Smith" EmptyString 100 "90" "Squat"].
Proof.
  apply (apply_filters_idempotent fragment_rx
           [mk_rec "June Smith" EmptyString 100 "90" "Squat";
            mk_rec "John Doe" EmptyString 100 "90" "Squat"]).
  vm_compute. reflexivity.
Defined.

(** On the table [load_data] returns, whatever dtypes [pd.read_csv]
    infers, Testing = "Tested" keeps exactly the records whose
    divisionRaw is present and ends with "DT". *)
Theorem tested_selection (rd : Reader) (rows : list RawRow) (out : list Rec)
  (Hout : load_data_rd rd rows = Some out) :
  apply_filters out (sel_with_testing "Tested")
    = Some (filter (fun r => match division_raw r with
                             | Some d => Py.endswith "DT" d
                             | None => false end) out).
Proof.
  apply LoadFacts.load_data_rd_some in Hout as ->.
  rewrite apply_filters_shape. cbn [sel_search sel_with_testing]. f_equal.
  apply filter_ext_in. intros r Hr. apply in_map_iff in Hr as (raw & <- & _).
  unfold fields_ok. simpl.
  destruct (read_cell (raw_division raw)) as [d|]; simpl; [|reflexivity].
  unfold testing_of. destruct (Py.endswith "DT" (Py.strip d)); reflexivity.
Qed.

Lemma tested_selection_witness :
  apply_filters [normalize_row_rd text_reader (mk_raw "A" "100" "90" "JuniorDT" "S");
                 normalize_row_rd text_reader (mk_raw "B" "100" "90" "Open" "S")]
    (sel_with_testing "Tested")
  = Some (filter (fun r => match division_raw r with
                           | Some d => Py.endswith "DT" d
                           | None => false end)
            [normalize_row_rd text_reader (mk_raw "A" "100" "90" "JuniorDT" "S");
             normalize_row_rd text_reader (mk_raw "B" "100" "90" "Open" "S")]).
Proof.
  apply (tested_selection text_reader [mk_raw "A" "100" "90" "JuniorDT" "S";
                                       mk_raw "B" "100" "90" "Open" "S"]).
  reflexivity.
Defined.

(** On the normalized table, choosing one of the artefact weight classes
    in the Weight box always gives the empty table. *)
Theorem artefact_class_selection_empty (rows : list RawRow) (c : string)
  (Hc : In c INVALID_WEIGHT_CLASSES) :
  apply_filters (load_data rows) (sel_with_class c) = Some [].
Proof.
  rewrite apply_filters_shape. cbn [sel_search sel_with_class]. f_equal.
  assert (Hall : c <> "All").
  { intros ->. simpl in Hc. intuition discriminate. }
  apply filter_none. intros r Hr. unfold fields_ok. simpl sel_sex.
  simpl sel_division. simpl sel_testing_status. simpl sel_equipment. simpl sel_weight_class.
  rewrite (proj2 (String.eqb_neq c "All") Hall). simpl.
  apply String.eqb_neq. intros Heq. pose proof (load_class_valid rows r Hr) as Hv.
  rewrite Heq in Hv. unfold is_invalid_class in Hv.
  assert (Ht : existsb (String.eqb c) INVALID_WEIGHT_CLASSES = true).
  { apply existsb_exists. exists c. split; [exact Hc | apply String.eqb_refl]. }
  congruence.
Qed.

Lemma artefact_class_selection_empty_witness :
  In "736" INVALID_WEIGHT_CLASSES
  /\ apply_filters (load_data [mk_raw "A" "100" "736" "Open" "S";
                               mk_raw "B" "90" "90" "Open" "B"]) (sel_with_class "736")
     = Some [].
Proof.
  split; [simpl; tauto|].
  apply artefact_class_selection_empty. simpl. tauto.
Defined.

End FilterExtras.

Module LoadExtras.
Import LoadFacts.

(** After [load_data] no lift is left as a raw code: the lift of a kept
    record is never "S", "B", "D" or "T". *)
Theorem lift_never_code (rows : list RawRow) (r : Rec)
  (Hr : In r (load_data rows)) :
  ~ In (lift r) ["S"; "B"; "D"; "T"].
Proof.
  apply load_data_in in Hr as (raw & _ & _ & _ & _ & ->). simpl. rewrite lift_column.
  destruct (read_cell (raw_lift raw)) as [s|]; simpl; [|intuition discriminate].
  destruct (String.eqb s "S") eqn:ES; [simpl; intuition discriminate|].
  destruct (String.eqb s "B") eqn:EB; [simpl; intuition discriminate|].
  destruct (String.eqb s "D") eqn:ED; [simpl; intuition discriminate|].
  destruct (String.eqb s "T") eqn:ET; [simpl; intuition discriminate|].
  destruct (String.eqb s "Total"); [simpl; intuition discriminate|].
  apply String.eqb_neq in ES, EB, ED, ET.
  intros [H|[H|[H|[H|[]]]]]; congruence.
Qed.

Lemma lift_never_code_witness :
  ~ In (lift (normalize_row (mk_raw "A" "100" "90" "Open" "T"))) ["S"; "B"; "D"; "T"].
Proof.
  apply (lift_never_code [mk_raw "A" "100" "90" "Open" "T"]). left. reflexivity.
Defined.

End LoadExtras.

Module BestExtras.
Import Best BestFacts.

Lemma drop_duplicates_id (seen : list (string * string)) (l : list Rec) :
  NoDup (map class_lift l) -> (forall o, In o l -> ~ In (class_lift o) seen) ->
  drop_duplicates seen l = l.
Proof.
  revert seen. induction l as [|x t IH]; intros seen Hnd Hs; [reflexivity|].
  simpl in Hnd. apply NoDup_cons_iff in Hnd as [Hx Hnd]. simpl.
  rewrite (proj2 (existsb_key_false _ _) (Hs x (or_introl eq_refl))).
  f_equal. apply IH; [exact Hnd|].
  intros o Ho [Hk|Hk].
  - apply Hx. rewrite Hk. now apply in_map.
  - exact (Hs o (or_intror Ho) Hk).
Qed.

Section AnyPerms.

Variables sort_weight_desc sort_keys : list Rec -> list Rec.
Hypothesis sort_weight_desc_perm : forall l, Permutation l (sort_weight_desc l).
Hypothesis sort_keys_perm : forall l, Permutation l (sort_keys l).

(** Running [best_per_class_and_lift] on its own output gives the same
    records again, whatever sorts are used (up to their order). *)
Theorem best_per_class_and_lift_idempotent (df : list Rec) :
  Permutation
    (best_per_class_and_lift sort_weight_desc sort_keys
       (best_per_class_and_lift sort_weight_desc sort_keys df))
    (best_per_class_and_lift sort_weight_desc sort_keys df).
Proof.
  set (b := best_per_class_and_lift sort_weight_desc sort_keys df).
  assert (Hb : NoDup (map class_lift b)).
  { unfold b, best_per_class_and_lift.
    destruct (drop_duplicates_props [] (sort_weight_desc df)) as [Hnd _].
    eapply Permutation_NoDup; [apply Permutation_map, sort_keys_perm | exact Hnd]. }
  unfold best_per_class_and_lift at 1.
  rewrite (drop_duplicates_id [] (sort_weight_desc b)).
  - eapply perm_trans; [apply Permutation_sym, sort_keys_perm|].
    apply Permutation_sym, sort_weight_desc_perm.
  - eapply Permutation_NoDup; [apply Permutation_map, sort_weight_desc_perm | exact Hb].
  - intros o _ [].
Qed.

End AnyPerms.

Lemma best_per_class_and_lift_idempotent_witness :
  Permutation
    (best_isort (best_isort [mk_rec "A" EmptyString 100 "90" "Squat";
                             mk_rec "B" EmptyString 120 "90" "Squat";
                             mk_rec "C" EmptyString 80 "90" "Bench"]))
    (best_isort [mk_rec "A" EmptyString 100 "90" "Squat";
                 mk_rec "B" EmptyString 120 "90" "Squat";
                 mk_rec "C" EmptyString 80 "90" "Bench"]).
Proof.
  apply best_per_class_and_lift_idempotent; intros l; apply isort_perm.
Defined.

End BestExtras.

Module TabFacts.
Import Opts RxFacts.

Lemma full_power_eq (filtered : list Rec) :
  full_power filtered =
    Some (filter (fun r => negb (Rx.contains_ci "Single" (record_type r))) filtered).
Proof.
  unfold full_power. rewrite (parse_pattern_plain "Single" eq_refl).
  cbv iota beta. f_equal. apply filter_ext. intros r. now rewrite search_cell_lits.
Qed.

Lemma single_lifts_eq (filtered : list Rec) :
  single_lifts filtered =
    Some (filter (fun r => (Rx.contains_ci "Single" (record_type r)
                            || Rx.contains_ci "Bench Only" (record_type r)
                            || Rx.contains_ci "Deadlift Only" (record_type r))
                           && (String.eqb (lift r) "Bench"
                               || String.eqb (lift r) "Deadlift")) filtered).
Proof.
  unfold single_lifts.
  change (Rx.parse_pattern "Single|Bench Only|Deadlift Only")
    with (Some [Rx.lits "Single"; Rx.lits "Bench Only"; Rx.lits "Deadlift Only"]).
  cbv iota beta. f_equal. apply filter_ext. intros r.
  cbn [Rx.search_cell existsb]. rewrite !search_branch_lits, !orb_false_r.
  unfold Rx.contains_ci. now rewrite !orb_assoc.
Qed.

End TabFacts.

Module TabExtras.
Import Opts TabFacts.

(** A record of [filtered] is shown in both the Full Power and the Single
    Lifts tab exactly when its record type contains "Bench Only" or
    "Deadlift Only" but not "Single" (ignoring case) and its lift is Bench
    or Deadlift. *)
Theorem tabs_overlap (filtered : list Rec) :
  exists fp sl, full_power filtered = Some fp /\ single_lifts filtered = Some sl
    /\ forall r, In r filtered ->
         (In r fp /\ In r sl <->
          Rx.contains_ci "Single" (record_type r) = false
          /\ (Rx.contains_ci "Bench Only" (record_type r)
              || Rx.contains_ci "Deadlift Only" (record_type r)) = true
          /\ (lift r = "Bench" \/ lift r = "Deadlift")).
Proof.
  do 2 eexists. split; [apply full_power_eq|]. split; [apply single_lifts_eq|].
  intros r Hr. rewrite !filter_In, negb_true_iff, !andb_true_iff, !orb_true_iff,
    !String.eqb_eq.
  split.
  - intros [[_ Hs] [_ [[[H1|H2]|H3] Hl]]]; [congruence| |]; tauto.
  - tauto.
Qed.

End TabExtras.

(* ================================================================== *)
(** ** The option lists of [inline_filters] / [sidebar_filters] *)

Module OptsFacts.
Import Opts FilterFacts.

Section UniqueBy.
Context {A : Type} (eqb : A -> A -> bool).
Hypothesis eqb_iff : forall x y, eqb x y = true <-> x = y.

Lemma existsb_eqb_iff (x : A) (l : list A) : existsb (eqb x) l = true <-> In x l.
Proof.
  rewrite existsb_exists. split.
  - intros (y & Hy & E). apply eqb_iff in E. now subst y.
  - intros H. exists x. split; [exact H|]. now apply eqb_iff.
Qed.

Lemma unique_by_in (seen l : list A) (x : A) :
  In x (unique_by eqb seen l) <-> In x l /\ ~ In x seen.
Proof.
  revert seen. induction l as [|y t IH]; intros seen; simpl; [tauto|].
  destruct (existsb (eqb y) seen) eqn:E.
  - apply existsb_eqb_iff in E. rewrite IH. split; [tauto|].
    intros [[<-|Ht] Hn]; [contradiction|tauto].
  - assert (Hy : ~ In y seen) by (intros H; apply existsb_eqb_iff in H; congruence).
    simpl. rewrite IH. simpl. split.
    + intros [<-|[Ht Hn]]; [tauto|]. tauto.
    + intros [[<-|Ht] Hn]; [now left|].
      destruct (eqb x y) eqn:Exy; [apply eqb_iff in Exy; now left|].
      right. split; [exact Ht|].
      intros [H|H]; [subst y; rewrite (proj2 (eqb_iff x x) eq_refl) in Exy; discriminate
                    |contradiction].
Qed.

Lemma unique_by_nodup (seen l : list A) : NoDup (unique_by eqb seen l).
Proof.
  revert seen. induction l as [|y t IH]; intros seen; simpl; [constructor|].
  destruct (existsb (eqb y) seen); [apply IH|].
  constructor; [|apply IH]. rewrite unique_by_in. simpl. tauto.
Qed.

End UniqueBy.

Lemma opt_eqb_iff (a b : option string) : opt_eqb a b = true <-> a = b.
Proof.
  destruct a as [x|], b as [y|]; simpl; try (split; congruence).
  rewrite String.eqb_eq. split; congruence.
Qed.

Lemma mem_opt_iff (x : option string) (l : list (option string)) :
  mem_opt x l = true <-> In x l.
Proof. apply existsb_eqb_iff, opt_eqb_iff. Qed.

Lemma dropna_in (col : list (option string)) (s : string) :
  In s (dropna col) <-> In (Some s) col.
Proof.
  induction col as [|[x|] t IH]; simpl; [tauto| |].
  - rewrite IH. split; intros [H|H]; auto; left; congruence.
  - rewrite IH. split; [tauto|]. intros [H|H]; [discriminate|exact H].
Qed.

Lemma insert_str_perm (x : string) (l : list string) : Permutation (x :: l) (insert_str x l).
Proof.
  induction l as [|y t IH]; simpl; [reflexivity|].
  destruct (String.leb x y); [reflexivity|].
  eapply perm_trans; [apply perm_swap|]. now apply perm_skip.
Qed.

Lemma sort_str_perm (l : list string) : Permutation l (sort_str l).
Proof.
  induction l as [|x t IH]; simpl; [reflexivity|].
  eapply perm_trans; [apply perm_skip, IH|]. apply insert_str_perm.
Qed.

Lemma insert_str_sorted (x : string) (l : list string) :
  Sorted str_le l -> Sorted str_le (insert_str x l).
Proof.
  induction l as [|y t IH]; simpl; intros Hs; [repeat constructor|].
  destruct (String.leb x y) eqn:E.
  - constructor; [exact Hs|]. constructor. exact E.
  - apply Sorted_inv in Hs as [Hst Hhd]. constructor; [now apply IH|].
    assert (Hyx : str_le y x) by (destruct (String.leb_total x y); unfold str_le; congruence).
    destruct t as [|z t']; simpl; [now constructor|].
    destruct (String.leb x z); constructor; [exact Hyx|]. now inversion Hhd.
Qed.

Lemma sort_str_sorted (l : list string) : Sorted str_le (sort_str l).
Proof.
  induction l as [|x t IH]; simpl; [constructor|]. now apply insert_str_sorted.
Qed.

(** The Sex and Equipment boxes: "All", then the distinct present values
    of the column, sorted. *)
Lemma sorted_options_spec (col : list (option string)) :
  exists opts, sorted_options col = "All" :: opts
    /\ Sorted str_le opts /\ NoDup opts
    /\ forall s, In s opts <-> In (Some s) col.
Proof.
  eexists. split; [reflexivity|]. split; [apply sort_str_sorted|]. split.
  - eapply Permutation_NoDup; [apply sort_str_perm|].
    apply unique_by_nodup, String.eqb_eq.
  - intros s. split.
    + intros H. apply (Permutation_in _ (Permutation_sym (sort_str_perm _))) in H.
      apply (unique_by_in _ String.eqb_eq) in H as [H _]. now apply dropna_in.
    + intros H. apply (Permutation_in _ (sort_str_perm _)).
      apply (unique_by_in _ String.eqb_eq). split; [now apply dropna_in | intros []].
Qed.

Lemma DIVISION_ORDER_nodup : NoDup (map Some DIVISION_ORDER).
Proof. repeat constructor; simpl; intuition discriminate. Qed.

Lemma ordered_divs_in (df : list Rec) (d : option string) :
  In d (ordered_divs df) <-> In d (map division_base df).
Proof.
  unfold ordered_divs. set (U := unique_by opt_eqb [] (map division_base df)).
  assert (HU : forall x, In x U <-> In x (map division_base df)).
  { intros x. unfold U. rewrite (unique_by_in _ opt_eqb_iff). simpl. tauto. }
  rewrite in_app_iff. split.
  - intros [H|H]; apply filter_In in H as [H1 H2].
    + apply mem_opt_iff, HU in H2. exact H2.
    + now apply HU.
  - intros H. destruct (mem_opt d (map Some DIVISION_ORDER)) eqn:E.
    + left. apply filter_In. split; [now apply mem_opt_iff|]. apply mem_opt_iff, HU, H.
    + right. apply filter_In. split; [now apply HU|]. now rewrite E.
Qed.

Lemma ordered_divs_nodup (df : list Rec) : NoDup (ordered_divs df).
Proof.
  unfold ordered_divs. apply NoDup_app.
  - apply NoDup_filter, DIVISION_ORDER_nodup.
  - apply NoDup_filter, unique_by_nodup, opt_eqb_iff.
  - intros a H1 H2. apply filter_In in H1 as [H1 _]. apply filter_In in H2 as [_ H2].
    apply negb_true_iff in H2. rewrite (proj2 (mem_opt_iff _ _) H1) in H2. discriminate.
Qed.

(** The one-box selections, as single filters. *)
Lemma sel_with_sex_eq (df : list Rec) (v : string) (Hv : v <> "All") :
  apply_filters df (sel_with_sex v) = Some (filter (fun r => cell_eq (sex r) v) df).
Proof.
  rewrite apply_filters_shape. cbn [sel_search sel_with_sex]. f_equal.
  apply filter_ext. intros r. unfold fields_ok. cbn [sel_sex sel_division
    sel_testing_status sel_equipment sel_weight_class sel_with_sex].
  rewrite (proj2 (String.eqb_neq v "All") Hv). simpl. now rewrite !andb_true_r.
Qed.

Lemma sel_with_equipment_eq (df : list Rec) (v : string) (Hv : v <> "All") :
  apply_filters df (sel_with_equipment v)
    = Some (filter (fun r => cell_eq (equipment r) v) df).
Proof.
  rewrite apply_filters_shape. cbn [sel_search sel_with_equipment]. f_equal.
  apply filter_ext. intros r. unfold fields_ok. cbn [sel_sex sel_division
    sel_testing_status sel_equipment sel_weight_class sel_with_equipment].
  rewrite (proj2 (String.eqb_neq v "All") Hv). simpl. now rewrite !andb_true_r.
Qed.

(** Filtering a column on a value that occurs in it keeps a non-empty
    list, all of whose records carry that value. *)
Lemma filter_cell_present (f : Rec -> option string) (df : list Rec) (v : string) :
  In (Some v) (map f df) ->
  filter (fun r => cell_eq (f r) v) df <> []
  /\ forall r, In r (filter (fun r => cell_eq (f r) v) df) -> f r = Some v.
Proof.
  intros H. split.
  - apply in_map_iff in H as (r & Hr & Hin). intros Hnil.
    assert (Hf : In r (filter (fun r => cell_eq (f r) v) df)).
    { apply filter_In. split; [exact Hin|]. now apply cell_eq_iff. }
    rewrite Hnil in Hf. contradiction.
  - intros r Hr. apply filter_In in Hr as [_ Hr]. now apply cell_eq_iff.
Qed.

End OptsFacts.

Module OptsExtras.
Import Opts FilterFacts OptsFacts.

(** The Sex and Equipment boxes offer "All" followed by the distinct
    values present in the column, each once, in ascending string order;
    missing cells contribute no option. *)
Theorem sex_equipment_options (df : list Rec) :
  (exists opts, sex_options df = "All" :: opts
     /\ Sorted str_le opts /\ NoDup opts
     /\ forall s, In s opts <-> In (Some s) (map sex df))
  /\ (exists opts, equipment_options df = "All" :: opts
     /\ Sorted str_le opts /\ NoDup opts
     /\ forall s, In s opts <-> In (Some s) (map equipment df)).
Proof. split; apply sorted_options_spec. Qed.

(** The Division box offers "All" followed by each distinct divisionBase
    value of the table exactly once (a missing value included): first the
    values of [DIVISION_ORDER] that occur, in that order, then the others. *)
Theorem division_options_spec (df : list Rec) :
  exists ods, division_options df = Some "All" :: ods
    /\ NoDup ods
    /\ Permutation ods (unique_by opt_eqb [] (map division_base df))
    /\ (forall d, In d ods <-> In d (map division_base df))
    /\ exists post,
         ods = (filter (fun d => mem_opt d (map division_base df)) (map Some DIVISION_ORDER)
                ++ post)%list
         /\ forall d, In d post -> ~ In d (map Some DIVISION_ORDER).
Proof.
  exists (ordered_divs df). split; [reflexivity|].
  assert (HU : forall x, In x (unique_by opt_eqb [] (map division_base df))
                         <-> In x (map division_base df)).
  { intros x. rewrite (unique_by_in _ opt_eqb_iff). simpl. tauto. }
  split; [apply ordered_divs_nodup|]. split.
  - apply NoDup_Permutation; [apply ordered_divs_nodup | apply unique_by_nodup, opt_eqb_iff|].
    intros x. rewrite ordered_divs_in, HU. reflexivity.
  - split; [apply ordered_divs_in|].
    eexists. split.
    + unfold ordered_divs. f_equal. apply filter_ext. intros d.
      apply Bool.eq_iff_eq_true. rewrite !mem_opt_iff, HU. reflexivity.
    + intros d Hd. apply filter_In in Hd as [_ Hd]. apply negb_true_iff in Hd.
      intros Hin. apply mem_opt_iff in Hin. congruence.
Qed.

(** Choosing an offered Sex option other than "All" (the other boxes at
    "All", no search) never gives an empty table, and every record kept
    has that sex. *)
Theorem sex_option_selects (df : list Rec) (s : string)
  (Hin : In s (sex_options df)) (Hall : s <> "All") :
  exists l, apply_filters df (sel_with_sex s) = Some l
    /\ l <> [] /\ forall r, In r l -> sex r = Some s.
Proof.
  eexists. split; [apply sel_with_sex_eq, Hall|]. apply filter_cell_present.
  destruct (sorted_options_spec (map sex df)) as (opts & Ho & _ & _ & Hi).
  unfold sex_options in Hin. rewrite Ho in Hin.
  destruct Hin as [<-|Hin]; [now destruct Hall|]. now apply Hi.
Qed.

Lemma sex_option_selects_witness :
  exists l, apply_filters [mk_person "A" "F" "Raw" "Opens"; mk_person "B" "M" "Raw" "Opens"]
                          (sel_with_sex "F") = Some l
    /\ l <> [] /\ forall r, In r l -> sex r = Some "F".
Proof.
  apply sex_option_selects; [vm_compute; tauto | discriminate].
Defined.

(** The same for an offered Equipment option. *)
Theorem equipment_option_selects (df : list Rec) (e : string)
  (Hin : In e (equipment_options df)) (Hall : e <> "All") :
  exists l, apply_filters df (sel_with_equipment e) = Some l
    /\ l <> [] /\ forall r, In r l -> equipment r = Some e.
Proof.
  eexists. split; [apply sel_with_equipment_eq, Hall|]. apply filter_cell_present.
  destruct (sorted_options_spec (map equipment df)) as (opts & Ho & _ & _ & Hi).
  unfold equipment_options in Hin. rewrite Ho in Hin.
  destruct Hin as [<-|Hin]; [now destruct Hall|]. now apply Hi.
Qed.

Lemma equipment_option_selects_witness :
  exists l, apply_filters [mk_person "A" "F" "Raw" "Opens"; mk_person "B" "M" "Wraps" "Opens"]
                          (sel_with_equipment "Wraps") = Some l
    /\ l <> [] /\ forall r, In r l -> equipment r = Some "Wraps".
Proof.
  apply equipment_option_selects; [vm_compute; tauto | discriminate].
Defined.

End OptsExtras.

